(** * TradeApp: the data store of the trading dashboard

    A shallow embedding of [src/context/DataContext.tsx] (the [DataProvider]
    store: journal entries, portfolio items, trades, live prices), of the
    valuation read in [src/components/PortfolioBreakdown.tsx] ([stats]) and of
    the exit-price handler of the trade form in
    [src/components/TradingJournal.tsx] ([handleExitPriceChange]).

    JavaScript numbers are IEEE 754 binary64 values; they are modelled by
    Rocq's primitive floats, so that [-], [/], [*], [<] and truthiness behave
    as in the source, infinities, signed zeros and NaN included. *)

From Stdlib Require Import Ascii DecimalString PrimFloat SpecFloat FloatOps FloatAxioms.
From stdpp Require Import gmap strings list fin_maps.

Set Default Proof Using "Type".
(* 0.01 denotes the binary64 value nearest to it, as it does in the source. *)
Set Warnings "-inexact-float".

(** ** Numbers *)

(** [if (x)] on a number: [0], [-0] and [NaN] are falsy, all else truthy. *)
Definition truthy (x : float) : bool := negb (is_zero x || is_nan x).

(** [if (x)] on a [number | null] (or on a possibly missing map entry). *)
Definition truthyOpt (x : option float) : bool :=
  match x with
  | Some v => truthy v
  | None => false
  end.

(** [if (s)] on a string: only the empty string is falsy. *)
Definition nonEmpty (s : string) : bool :=
  match s with
  | EmptyString => false
  | String _ _ => true
  end.

(** ** Data model ([types.ts]) *)

Inductive Direction := LONG | SHORT.
Inductive Sentiment := BULLISH | BEARISH | NEUTRAL | MIXED.
Inductive AssetType := Crypto | Stock.
Inductive Category := Liquid | Vested | Farming.
Inductive Status := Open | Win | Loss | Breakeven.

#[global] Instance Direction_eq_dec : EqDecision Direction.
Proof. solve_decision. Defined.
#[global] Instance Status_eq_dec : EqDecision Status.
Proof. solve_decision. Defined.
#[global] Instance AssetType_eq_dec : EqDecision AssetType.
Proof. solve_decision. Defined.

Module JournalEntry.
Record t := mk {
  id : string;
  date : string;
  macroReview : string;
  altsMarket : string;
  summary : string;
  sentiment : Sentiment
}.
End JournalEntry.

(** [Omit<JournalEntry, 'id'>] *)
Module JournalEntryData.
Record t := mk {
  date : string;
  macroReview : string;
  altsMarket : string;
  summary : string;
  sentiment : Sentiment
}.
End JournalEntryData.

(** [assetType] may be missing on records stored by earlier versions
    ("Default to Crypto if undefined"), hence the option. *)
Module PortfolioItem.
Record t := mk {
  id : string;
  token : string;
  amount : float;
  buyPrice : float;
  currentPrice : float;
  category : Category;
  assetType : option AssetType
}.
End PortfolioItem.

(** [Omit<PortfolioItem, 'id'>] *)
Module PortfolioItemData.
Record t := mk {
  token : string;
  amount : float;
  buyPrice : float;
  currentPrice : float;
  category : Category;
  assetType : option AssetType
}.
End PortfolioItemData.

(** [Partial<Omit<PortfolioItem, 'id'>>]: [None] is a key the update does
    not carry. *)
Module PortfolioItemUpdates.
Record t := mk {
  token : option string;
  amount : option float;
  buyPrice : option float;
  currentPrice : option float;
  category : option Category;
  assetType : option AssetType
}.
End PortfolioItemUpdates.

(** [exitPrice : number | null] and [pnl : number | null] are options;
    [exitReason?] and [postExitReflection?] are strings or [undefined]. *)
Module Trade.
Record t := mk {
  id : string;
  date : string;
  ticker : string;
  direction : Direction;
  entryPrice : float;
  exitPrice : option float;
  size : float;
  pnl : option float;
  status : Status;
  rationale : string;
  exitReason : option string;
  postExitReflection : option string
}.
End Trade.

(** [Omit<Trade, 'id' | 'pnl'>] *)
Module TradeData.
Record t := mk {
  date : string;
  ticker : string;
  direction : Direction;
  entryPrice : float;
  exitPrice : option float;
  size : float;
  status : Status;
  rationale : string;
  exitReason : option string;
  postExitReflection : option string
}.
End TradeData.

(** [Partial<Omit<Trade, 'id' | 'pnl'>>]. The outer option says whether the
    update carries the key; for [exitPrice], [exitReason] and
    [postExitReflection] the carried value may itself be [null]/[undefined]
    ([Some None]), which the object spread copies over the stored value. *)
Module TradeUpdates.
Record t := mk {
  date : option string;
  ticker : option string;
  direction : option Direction;
  entryPrice : option float;
  exitPrice : option (option float);
  size : option float;
  status : option Status;
  rationale : option string;
  exitReason : option (option string);
  postExitReflection : option (option string)
}.

(** The update [{}]. *)
Definition empty : t :=
  mk None None None None None None None None None None.
End TradeUpdates.

(** ** The store and its surroundings *)

(** What [localStorage] holds under a key: [JSON.stringify] of one of the
    three collections. *)
Inductive Stored :=
| StoredJournal (l : list JournalEntry.t)
| StoredPortfolio (l : list PortfolioItem.t)
| StoredTrades (l : list Trade.t).

(** The requests sent to the remote tables, in the order they are issued. *)
Inductive RemoteCall :=
| InsertJournalEntry (row : JournalEntry.t)
| InsertPortfolioItem (row : PortfolioItem.t)
| InsertTrade (row : Trade.t)
| UpdatePortfolioItem (id : string) (fields : PortfolioItemUpdates.t)
| UpdateTrade (id : string) (fields : TradeUpdates.t) (pnl : option float)
| DeleteEq (table : string) (id : string)
| DeleteNeq (table : string) (id : string).

(** The [useState] cells of [DataProvider], together with what the provider
    acts upon: the browser's [localStorage], the remote calls issued so far
    and the number of [setTimeout(refreshPrices, 500)] timers scheduled. *)
Record State := mkState {
  journalEntries : list JournalEntry.t;
  portfolioItems : list PortfolioItem.t;
  trades : list Trade.t;
  loading : bool;
  livePrices : gmap string float;
  lastUpdated : option Z;
  isRefreshing : bool;
  localStorage : gmap string Stored;
  remoteCalls : list RemoteCall;
  pendingRefresh : nat
}.

Definition setJournalEntries (l : list JournalEntry.t) (st : State) : State :=
  mkState l (portfolioItems st) (trades st) (loading st) (livePrices st)
    (lastUpdated st) (isRefreshing st) (localStorage st) (remoteCalls st)
    (pendingRefresh st).

Definition setPortfolioItems (l : list PortfolioItem.t) (st : State) : State :=
  mkState (journalEntries st) l (trades st) (loading st) (livePrices st)
    (lastUpdated st) (isRefreshing st) (localStorage st) (remoteCalls st)
    (pendingRefresh st).

Definition setTrades (l : list Trade.t) (st : State) : State :=
  mkState (journalEntries st) (portfolioItems st) l (loading st)
    (livePrices st) (lastUpdated st) (isRefreshing st) (localStorage st)
    (remoteCalls st) (pendingRefresh st).

(** [setLivePrices(newPrices); setLastUpdated(new Date()); setIsRefreshing(false)] *)
Definition setPrices (m : gmap string float) (now : Z) (st : State) : State :=
  mkState (journalEntries st) (portfolioItems st) (trades st) (loading st) m
    (Some now) false (localStorage st) (remoteCalls st) (pendingRefresh st).

(** [localStorage.setItem(key, JSON.stringify(data))] *)
Definition setItem (key : string) (data : Stored) (st : State) : State :=
  mkState (journalEntries st) (portfolioItems st) (trades st) (loading st)
    (livePrices st) (lastUpdated st) (isRefreshing st)
    (<[key := data]> (localStorage st)) (remoteCalls st) (pendingRefresh st).

(** A request to the remote backend. *)
Definition send (c : RemoteCall) (st : State) : State :=
  mkState (journalEntries st) (portfolioItems st) (trades st) (loading st)
    (livePrices st) (lastUpdated st) (isRefreshing st) (localStorage st)
    (remoteCalls st ++ [c]) (pendingRefresh st).

(** [setTimeout(refreshPrices, 500)] *)
Definition scheduleRefresh (st : State) : State :=
  mkState (journalEntries st) (portfolioItems st) (trades st) (loading st)
    (livePrices st) (lastUpdated st) (isRefreshing st) (localStorage st)
    (remoteCalls st) (S (pendingRefresh st)).

(** The provider's state before the initial fetch. *)
Definition initialState : State :=
  mkState [] [] [] true ∅ None false ∅ [] 0.

(** The three cached collections. *)
Definition collections (st : State)
  : list JournalEntry.t * list PortfolioItem.t * list Trade.t :=
  (journalEntries st, portfolioItems st, trades st).

(** [!error] on the [error] field of a remote response. *)
Definition noError (error : option string) : bool :=
  match error with
  | None => true
  | Some _ => false
  end.

(** ** The mutations of [DataProvider]

    Calls are taken one at a time: each reads the state the previous one
    left, so the collection a handler closes over and the one its state
    updater receives are the same list. *)

Section Provider.

(** The two exports of [lib/supabase]: whether the endpoint and key are
    configured, and whether a client object exists. They are fixed for the
    lifetime of the process. *)
Variables (isSupabaseConfigured supabase : bool).

(** Helper to persist to LS if not using Supabase. *)
Definition persistToLS (key : string) (data : Stored) (st : State) : State :=
  if negb isSupabaseConfigured then setItem key data st else st.

(** Whether a write reaches the cache: always on the local path, and on the
    remote path when no error is reported. *)
Definition written (error : option string) : bool :=
  negb (isSupabaseConfigured && supabase) || noError error.

(** Each mutation takes what the environment hands it during the call: the
    value of [crypto.randomUUID()] and the [error] field of the remote
    response ([None] is [null]). A mutation on the local path ignores
    [error]; a mutation that creates nothing ignores [uuid]. *)

Definition addJournalEntry_newEntry (uuid : string) (entry : JournalEntryData.t)
  : JournalEntry.t :=
  {| JournalEntry.id := uuid;
     JournalEntry.date := JournalEntryData.date entry;
     JournalEntry.macroReview := JournalEntryData.macroReview entry;
     JournalEntry.altsMarket := JournalEntryData.altsMarket entry;
     JournalEntry.summary := JournalEntryData.summary entry;
     JournalEntry.sentiment := JournalEntryData.sentiment entry |}.

Definition addJournalEntry (uuid : string) (error : option string)
    (entry : JournalEntryData.t) (st : State) : State :=
  let newEntry := addJournalEntry_newEntry uuid entry in
  if isSupabaseConfigured && supabase then
    let st := send (InsertJournalEntry newEntry) st in
    if noError error
    then setJournalEntries (newEntry :: journalEntries st) st
    else st
  else
    let updated := newEntry :: journalEntries st in
    persistToLS "journalEntries" (StoredJournal updated)
      (setJournalEntries updated st).

Definition deleteJournalEntry (error : option string) (id : string)
    (st : State) : State :=
  let keep (item : JournalEntry.t) :=
    negb (bool_decide (JournalEntry.id item = id)) in
  if isSupabaseConfigured && supabase then
    let st := send (DeleteEq "journal_entries" id) st in
    if noError error
    then setJournalEntries (List.filter keep (journalEntries st)) st
    else st
  else
    let updated := List.filter keep (journalEntries st) in
    persistToLS "journalEntries" (StoredJournal updated)
      (setJournalEntries updated st).

Definition addPortfolioItem_newItem (uuid : string) (item : PortfolioItemData.t)
  : PortfolioItem.t :=
  {| PortfolioItem.id := uuid;
     PortfolioItem.token := PortfolioItemData.token item;
     PortfolioItem.amount := PortfolioItemData.amount item;
     PortfolioItem.buyPrice := PortfolioItemData.buyPrice item;
     PortfolioItem.currentPrice := PortfolioItemData.currentPrice item;
     PortfolioItem.category := PortfolioItemData.category item;
     PortfolioItem.assetType := PortfolioItemData.assetType item |}.

Definition addPortfolioItem (uuid : string) (error : option string)
    (item : PortfolioItemData.t) (st : State) : State :=
  let newItem := addPortfolioItem_newItem uuid item in
  let st :=
    if isSupabaseConfigured && supabase then
      let st := send (InsertPortfolioItem newItem) st in
      if noError error
      then setPortfolioItems (newItem :: portfolioItems st) st
      else st
    else
      let updated := newItem :: portfolioItems st in
      persistToLS "portfolioItems" (StoredPortfolio updated)
        (setPortfolioItems updated st) in
  (* Trigger immediate price refresh *)
  scheduleRefresh st.

(** [{ ...item, ...updates }] *)
Definition mergePortfolioItem (item : PortfolioItem.t)
    (updates : PortfolioItemUpdates.t) : PortfolioItem.t :=
  {| PortfolioItem.id := PortfolioItem.id item;
     PortfolioItem.token :=
       default (PortfolioItem.token item) (PortfolioItemUpdates.token updates);
     PortfolioItem.amount :=
       default (PortfolioItem.amount item) (PortfolioItemUpdates.amount updates);
     PortfolioItem.buyPrice :=
       default (PortfolioItem.buyPrice item)
         (PortfolioItemUpdates.buyPrice updates);
     PortfolioItem.currentPrice :=
       default (PortfolioItem.currentPrice item)
         (PortfolioItemUpdates.currentPrice updates);
     PortfolioItem.category :=
       default (PortfolioItem.category item)
         (PortfolioItemUpdates.category updates);
     PortfolioItem.assetType :=
       match PortfolioItemUpdates.assetType updates with
       | Some a => Some a
       | None => PortfolioItem.assetType item
       end |}.

Definition editPortfolioItem (error : option string) (id : string)
    (updates : PortfolioItemUpdates.t) (st : State) : State :=
  let edit (item : PortfolioItem.t) :=
    if bool_decide (PortfolioItem.id item = id)
    then mergePortfolioItem item updates else item in
  let st :=
    if isSupabaseConfigured && supabase then
      let st := send (UpdatePortfolioItem id updates) st in
      if noError error
      then setPortfolioItems (List.map edit (portfolioItems st)) st
      else st
    else
      let updated := List.map edit (portfolioItems st) in
      persistToLS "portfolioItems" (StoredPortfolio updated)
        (setPortfolioItems updated st) in
  scheduleRefresh st.

Definition deletePortfolioItem (error : option string) (id : string)
    (st : State) : State :=
  let keep (item : PortfolioItem.t) :=
    negb (bool_decide (PortfolioItem.id item = id)) in
  if isSupabaseConfigured && supabase then
    let st := send (DeleteEq "portfolio_items" id) st in
    if noError error
    then setPortfolioItems (List.filter keep (portfolioItems st)) st
    else st
  else
    let updated := List.filter keep (portfolioItems st) in
    persistToLS "portfolioItems" (StoredPortfolio updated)
      (setPortfolioItems updated st).

(** The record [addTrade] builds: the payload, a fresh id and the derived
    [pnl]. *)
Definition addTrade_newTrade (uuid : string) (tradeData : TradeData.t)
  : Trade.t :=
  let pnl : option float :=
    (* Auto-calculate PnL if trade is closed *)
    if negb (bool_decide (TradeData.status tradeData = Open))
       && truthyOpt (TradeData.exitPrice tradeData)
    then
      match TradeData.exitPrice tradeData with
      | Some exitVal =>
          let entryVal := TradeData.entryPrice tradeData in
          match TradeData.direction tradeData with
          | LONG =>
              Some (((exitVal - entryVal) / entryVal)
                    * TradeData.size tradeData)%float
          | SHORT =>
              Some (((entryVal - exitVal) / entryVal)
                    * TradeData.size tradeData)%float
          end
      | None => None (* not reached: a truthy exitPrice is a number *)
      end
    else None in
  {| Trade.id := uuid;
     Trade.date := TradeData.date tradeData;
     Trade.ticker := TradeData.ticker tradeData;
     Trade.direction := TradeData.direction tradeData;
     Trade.entryPrice := TradeData.entryPrice tradeData;
     Trade.exitPrice := TradeData.exitPrice tradeData;
     Trade.size := TradeData.size tradeData;
     Trade.pnl := pnl;
     Trade.status := TradeData.status tradeData;
     Trade.rationale := TradeData.rationale tradeData;
     Trade.exitReason := TradeData.exitReason tradeData;
     Trade.postExitReflection := TradeData.postExitReflection tradeData |}.

Definition addTrade (uuid : string) (error : option string)
    (tradeData : TradeData.t) (st : State) : State :=
  let newTrade := addTrade_newTrade uuid tradeData in
  if isSupabaseConfigured && supabase then
    let st := send (InsertTrade newTrade) st in
    if noError error then setTrades (newTrade :: trades st) st else st
  else
    let updated := newTrade :: trades st in
    persistToLS "trades" (StoredTrades updated) (setTrades updated st).

(** [{ ...currentTrade, ...updates }] *)
Definition mergeTrade (currentTrade : Trade.t) (updates : TradeUpdates.t)
  : Trade.t :=
  {| Trade.id := Trade.id currentTrade;
     Trade.date :=
       default (Trade.date currentTrade) (TradeUpdates.date updates);
     Trade.ticker :=
       default (Trade.ticker currentTrade) (TradeUpdates.ticker updates);
     Trade.direction :=
       default (Trade.direction currentTrade) (TradeUpdates.direction updates);
     Trade.entryPrice :=
       default (Trade.entryPrice currentTrade)
         (TradeUpdates.entryPrice updates);
     Trade.exitPrice :=
       default (Trade.exitPrice currentTrade) (TradeUpdates.exitPrice updates);
     Trade.size :=
       default (Trade.size currentTrade) (TradeUpdates.size updates);
     Trade.pnl := Trade.pnl currentTrade;
     Trade.status :=
       default (Trade.status currentTrade) (TradeUpdates.status updates);
     Trade.rationale :=
       default (Trade.rationale currentTrade) (TradeUpdates.rationale updates);
     Trade.exitReason :=
       default (Trade.exitReason currentTrade)
         (TradeUpdates.exitReason updates);
     Trade.postExitReflection :=
       default (Trade.postExitReflection currentTrade)
         (TradeUpdates.postExitReflection updates) |}.

(** The [pnl] that [editTrade] derives for the merged record. *)
Definition editTrade_pnl (currentTrade mergedTrade : Trade.t) : option float :=
  (* Recalculate PnL *)
  if negb (bool_decide (Trade.status mergedTrade = Open))
     && truthyOpt (Trade.exitPrice mergedTrade)
  then
    match Trade.exitPrice mergedTrade with
    | Some exit =>
        let entry := Trade.entryPrice mergedTrade in
        let size := Trade.size mergedTrade in
        match Trade.direction mergedTrade with
        | LONG => Some (((exit - entry) / entry) * size)%float
        | SHORT => Some (((entry - exit) / entry) * size)%float
        end
    | None => Trade.pnl currentTrade (* not reached, as above *)
    end
  else if bool_decide (Trade.status mergedTrade = Open) then None
  else Trade.pnl currentTrade.

(** [{ ...mergedTrade, pnl }] *)
Definition withPnl (mergedTrade : Trade.t) (pnl : option float) : Trade.t :=
  {| Trade.id := Trade.id mergedTrade;
     Trade.date := Trade.date mergedTrade;
     Trade.ticker := Trade.ticker mergedTrade;
     Trade.direction := Trade.direction mergedTrade;
     Trade.entryPrice := Trade.entryPrice mergedTrade;
     Trade.exitPrice := Trade.exitPrice mergedTrade;
     Trade.size := Trade.size mergedTrade;
     Trade.pnl := pnl;
     Trade.status := Trade.status mergedTrade;
     Trade.rationale := Trade.rationale mergedTrade;
     Trade.exitReason := Trade.exitReason mergedTrade;
     Trade.postExitReflection := Trade.postExitReflection mergedTrade |}.

(** The record [editTrade] puts in place of [currentTrade]. *)
Definition editTrade_finalTrade (currentTrade : Trade.t)
    (updates : TradeUpdates.t) : Trade.t :=
  let mergedTrade := mergeTrade currentTrade updates in
  withPnl mergedTrade (editTrade_pnl currentTrade mergedTrade).

Definition editTrade (error : option string) (id : string)
    (updates : TradeUpdates.t) (st : State) : State :=
  match List.find (fun t => bool_decide (Trade.id t = id)) (trades st) with
  | None => st
  | Some currentTrade =>
      let finalTrade := editTrade_finalTrade currentTrade updates in
      let replace (t : Trade.t) :=
        if bool_decide (Trade.id t = id) then finalTrade else t in
      if isSupabaseConfigured && supabase then
        let st := send (UpdateTrade id updates (Trade.pnl finalTrade)) st in
        if noError error
        then setTrades (List.map replace (trades st)) st
        else st
      else
        let updated := List.map replace (trades st) in
        persistToLS "trades" (StoredTrades updated) (setTrades updated st)
  end.

Definition deleteTrade (error : option string) (id : string) (st : State)
  : State :=
  let keep (item : Trade.t) := negb (bool_decide (Trade.id item = id)) in
  if isSupabaseConfigured && supabase then
    let st := send (DeleteEq "trades" id) st in
    if noError error
    then setTrades (List.filter keep (trades st)) st
    else st
  else
    let updated := List.filter keep (trades st) in
    persistToLS "trades" (StoredTrades updated) (setTrades updated st).

Definition clearTrades (error : option string) (st : State) : State :=
  if isSupabaseConfigured && supabase then
    let st :=
      send (DeleteNeq "trades" "00000000-0000-0000-0000-000000000000") st in
    if noError error then setTrades [] st else st
  else
    persistToLS "trades" (StoredTrades []) (setTrades [] st).

(** *** Calls to the provider *)

Inductive Mutation :=
| AddJournalEntry (entry : JournalEntryData.t)
| DeleteJournalEntry (id : string)
| AddPortfolioItem (item : PortfolioItemData.t)
| EditPortfolioItem (id : string) (updates : PortfolioItemUpdates.t)
| DeletePortfolioItem (id : string)
| AddTrade (tradeData : TradeData.t)
| EditTrade (id : string) (updates : TradeUpdates.t)
| DeleteTrade (id : string)
| ClearTrades.

(** One call, with the id the runtime draws and the error the backend
    reports during it. *)
Definition call (uuid : string) (error : option string) (m : Mutation)
    (st : State) : State :=
  match m with
  | AddJournalEntry entry => addJournalEntry uuid error entry st
  | DeleteJournalEntry id => deleteJournalEntry error id st
  | AddPortfolioItem item => addPortfolioItem uuid error item st
  | EditPortfolioItem id updates => editPortfolioItem error id updates st
  | DeletePortfolioItem id => deletePortfolioItem error id st
  | AddTrade tradeData => addTrade uuid error tradeData st
  | EditTrade id updates => editTrade error id updates st
  | DeleteTrade id => deleteTrade error id st
  | ClearTrades => clearTrades error st
  end.

(** A sequence of calls, each completed before the next starts. *)
Definition calls (l : list (string * option string * Mutation)) (st : State)
  : State :=
  fold_left (fun st c => call c.1.1 c.1.2 c.2 st) l st.

End Provider.

(** ** Price refresh ([refreshPrices]) *)

Section PriceFeed.

(** Two builtins of the runtime: [String.prototype.toUpperCase] and the
    rounding [x => Number(x.toFixed(2))]. *)
Variable toUpperCase : string → string.
Variable toFixed2 : float → float.

(** [item.assetType === 'Crypto' || !item.assetType] *)
Definition isCrypto (item : PortfolioItem.t) : bool :=
  match PortfolioItem.assetType item with
  | Some Crypto | None => true
  | Some Stock => false
  end.

(** The [Set] of upper-cased crypto tickers, in insertion order. *)
Definition cryptoTickers (items : list PortfolioItem.t) : list string :=
  fold_left
    (fun tickers item =>
       if isCrypto item then
         let ticker := toUpperCase (PortfolioItem.token item) in
         if bool_decide (ticker ∈ tickers) then tickers else tickers ++ [ticker]
       else tickers)
    items [].

Definition stockItems (items : list PortfolioItem.t) : list PortfolioItem.t :=
  List.filter (fun item => negb (isCrypto item)) items.

(** [Array.from(cryptoTickers).join(',')] *)
Definition tickersString (tickers : list string) : string :=
  String.concat "," tickers.

Definition priceUrl (tickers : list string) : string :=
  "https://min-api.cryptocompare.com/data/pricemulti?fsyms="
  +:+ tickersString tickers +:+ "&tsyms=USD".

(** [Object.keys(data).forEach(ticker => newPrices[ticker] = data[ticker].USD)].
    [data] lists the keys of the decoded response in the order of
    [Object.keys], each with the number its value holds under [USD], or
    with [None] when its value is [null], so that reading [.USD] throws.
    The loop runs inside the [try] of the request: a throw ends it with the
    tickers before it merged, and is caught and logged. A response with a
    value that is an object without a number under [USD] is not
    represented. *)
Fixpoint mergeCrypto (data : list (string * option float))
    (newPrices : gmap string float) : gmap string float :=
  match data with
  | [] => newPrices
  | (ticker, Some usd) :: rest =>
      mergeCrypto rest (<[ticker := usd]> newPrices)
  | (_, None) :: _ => newPrices
  end.

(** The quotes of a response that the loop merges. *)
Definition quotes (data : list (string * option float)) : gmap string float :=
  mergeCrypto data ∅.

(** [newPrices[item.token] || item.currentPrice] *)
Definition lastKnown (newPrices : gmap string float) (item : PortfolioItem.t)
  : float :=
  match newPrices !! PortfolioItem.token item with
  | Some p => if truthy p then p else PortfolioItem.currentPrice item
  | None => PortfolioItem.currentPrice item
  end.

(** The [stockItems.forEach] loop; [random n] is what the [n]-th call of
    [Math.random()] of the cycle returns, [n] the number of calls made. *)
Fixpoint simulateStocks (random : nat → float) (n : nat)
    (stocks : list PortfolioItem.t) (newPrices : gmap string float)
  : gmap string float :=
  match stocks with
  | [] => newPrices
  | item :: rest =>
      let current := lastKnown newPrices item in
      (* Fluctuate by +/- 0.5% *)
      let change := (1 + (random n - 0.5) * 0.01)%float in
      simulateStocks random (S n) rest
        (<[PortfolioItem.token item := toFixed2 (current * change)]> newPrices)
  end.

(** What the crypto request of a cycle contributes: nothing when there is no
    crypto ticker (no request is made) or when the request or its decoding
    throws ([fetch url = None], caught and logged); otherwise the quotes of
    the response that the loop merges. *)
Definition fetched (fetch : string → option (list (string * option float)))
    (items : list PortfolioItem.t) : gmap string float :=
  let tickers := cryptoTickers items in
  if bool_decide (0 < length tickers) then
    match fetch (priceUrl tickers) with
    | Some data => quotes data
    | None => ∅
    end
  else ∅.

(** One run of the [refreshPrices] callback. The callback is made anew in
    each render ([useCallback] on [portfolioItems] and [livePrices]) and
    reads these two as they were in the render it was made in, [captured];
    its setters act on the state at the time the run completes, [st], where
    [setLivePrices(newPrices)] replaces the map. The refresh button and the
    first call of the polling effect run the callback of the current
    render; the 15 s interval goes on running the callback of the render
    the effect ran in, and [setTimeout(refreshPrices, 500)] runs the
    callback of the render the mutation was made in, that is, of the state
    before the mutation. [now] is [new Date()]. *)
Definition refreshPrices (captured : State)
    (fetch : string → option (list (string * option float)))
    (random : nat → float) (now : Z) (st : State) : State :=
  if bool_decide (length (portfolioItems captured) = 0) then st
  else
    let newPrices := livePrices captured in
    (* 1. Separate Assets *)
    let tickers := cryptoTickers (portfolioItems captured) in
    let stocks := stockItems (portfolioItems captured) in
    (* 2. Fetch Crypto *)
    let newPrices :=
      if bool_decide (0 < length tickers) then
        match fetch (priceUrl tickers) with
        | Some data => mergeCrypto data newPrices
        | None => newPrices
        end
      else newPrices in
    (* 3. Simulate Stocks *)
    let newPrices := simulateStocks random 0 stocks newPrices in
    setPrices newPrices now st.

(** ** Portfolio valuation ([stats] of [PortfolioBreakdown]) *)

(** A row of [dataByToken]: the item's own fields ([...item]) and the
    derived ones. *)
Record StatsRow := mkStatsRow {
  item : PortfolioItem.t;
  effectivePrice : float;
  isLive : bool;
  value : float;
  pnl : float;
  invested : float
}.

Definition statsRow (prices : gmap string float) (it : PortfolioItem.t)
  : StatsRow :=
  (* Use live price if available, otherwise fallback to manual entry *)
  let livePrice := prices !! toUpperCase (PortfolioItem.token it) in
  let effectivePrice :=
    match livePrice with
    | Some p => p
    | None => PortfolioItem.currentPrice it
    end in
  let value := (effectivePrice * PortfolioItem.amount it)%float in
  let invested :=
    (PortfolioItem.buyPrice it * PortfolioItem.amount it)%float in
  let pnl := (value - invested)%float in
  mkStatsRow it effectivePrice (bool_decide (is_Some livePrice)) value pnl
    invested.

(** [.sort((a, b) => b.value - a.value)], a stable sort: [a] moves behind
    [b] only when the comparator is positive, so rows of equal value keep
    their relative order. When a value is NaN the comparator is not
    consistent and the order [Array.prototype.sort] yields is left to the
    implementation; the order computed here is then not the runtime's, and
    only the rows listed, not their order, are relied on. *)
Fixpoint insertByValue (a : StatsRow) (rows : list StatsRow) : list StatsRow :=
  match rows with
  | [] => [a]
  | b :: rest =>
      if (0 <? value b - value a)%float
      then b :: insertByValue a rest
      else a :: rows
  end.

Definition sortByValue (rows : list StatsRow) : list StatsRow :=
  foldr insertByValue [] rows.

Record Stats := mkStats {
  totalValue : float;
  totalInvested : float;
  dataByToken : list StatsRow
}.

Definition stats (st : State) : Stats :=
  let rows := List.map (statsRow (livePrices st)) (portfolioItems st) in
  mkStats
    (fold_left (fun total row => (total + value row)%float) rows 0%float)
    (fold_left (fun total row => (total + invested row)%float) rows 0%float)
    (sortByValue rows).

End PriceFeed.

(** ** The trade form ([TradingJournal]) *)

(** The form keeps what the user typed: numbers are strings until submit. *)
Record FormData := mkFormData {
  date : string;
  ticker : string;
  direction : Direction;
  entryPrice : string;
  exitPrice : string;
  size : string;
  status : Status;
  rationale : string;
  exitReason : string;
  postExitReflection : string
}.

Section TradeForm.

(** The builtin [Number(s)] on the text of an input field. *)
Variable Number : string → float.

(** The updater that [handleExitPriceChange] passes to [setFormData];
    [price] is [e.target.value]. *)
Definition handleExitPriceChange (price : string) (prev : FormData)
  : FormData :=
  let newStatus :=
    (* Auto-calculate status if user enters exit price and status was Open *)
    if nonEmpty price && nonEmpty (entryPrice prev) then
      let entry := Number (entryPrice prev) in
      let exit := Number price in
      match direction prev with
      | LONG =>
          if (entry <? exit)%float then Win
          else if (exit <? entry)%float then Loss
          else Breakeven
      | SHORT =>
          if (exit <? entry)%float then Win
          else if (entry <? exit)%float then Loss
          else Breakeven
      end
    else status prev in
  mkFormData (date prev) (ticker prev) (direction prev) (entryPrice prev)
    price (size prev) newStatus (rationale prev) (exitReason prev)
    (postExitReflection prev).

End TradeForm.

(** ** Instances of the runtime builtins, for running the model *)

(** [toUpperCase] on ASCII text (ticker symbols). *)
Definition asciiUpper (c : ascii) : ascii :=
  let n := nat_of_ascii c in
  if bool_decide (97 ≤ n ∧ n ≤ 122)%nat then ascii_of_nat (n - 32) else c.

Fixpoint asciiToUpperCase (s : string) : string :=
  match s with
  | EmptyString => EmptyString
  | String c rest => String (asciiUpper c) (asciiToUpperCase rest)
  end.

(** The binary64 value nearest to [n / d] (ties to even), with sign [s]. *)
Definition nearestQuotient (s : bool) (n d : positive) : float :=
  SF2Prim (SFdiv prec emax (S754_finite s n 0) (S754_finite false d 0)).

(** The integer nearest to [m * 2^e * 100], the larger one on a tie. *)
Definition hundredths (m : positive) (e : Z) : Z :=
  match e with
  | Zneg p => (2 * (Z.pos m * 100) + 2 ^ Z.pos p) `div` 2 ^ (Z.pos p + 1)
  | _ => Z.pos m * 100 * 2 ^ e
  end.

(** [Number(x.toFixed(2))]: [toFixed] prints the decimal with two fraction
    digits nearest to [|x|], the larger on a tie (magnitudes from 1e21 on
    print in full, as do NaN and the infinities; [-0] prints as [0.00]), and
    [Number] reads the text back to the nearest binary64 value. *)
Definition toFixed2_binary64 (x : float) : float :=
  match Prim2SF x with
  | S754_finite s m e =>
      if (1e21 <=? abs x)%float then x
      else
        match hundredths m e with
        | Z.pos n => nearestQuotient s n 100
        | _ => if s then neg_zero else zero
        end
  | S754_zero _ => zero
  | _ => x
  end.

(** [Number(s)] on what a numeric input field holds: the empty string, or
    decimal digits with an optional fraction. Other texts, which [Number]
    also reads (signs, exponents, blanks), are not covered and yield NaN
    here. *)
Fixpoint digits (acc : Z) (s : string) : option Z :=
  match s with
  | EmptyString => Some acc
  | String c rest =>
      let n := nat_of_ascii c in
      if bool_decide (48 ≤ n ∧ n ≤ 57)%nat
      then digits (10 * acc + Z.of_nat (n - 48)) rest
      else None
  end.

Fixpoint splitAtDot (s : string) : string * option string :=
  match s with
  | EmptyString => (EmptyString, None)
  | String c rest =>
      if bool_decide (c = "."%char) then (EmptyString, Some rest)
      else let '(whole, frac) := splitAtDot rest in (String c whole, frac)
  end.

Definition decimalNumber (s : string) : float :=
  let '(whole, frac) := splitAtDot s in
  let frac := default EmptyString frac in
  if nonEmpty s && negb (nonEmpty whole) && negb (nonEmpty frac) then nan
  else
    match digits 0 (whole +:+ frac) with
    | Some (Z.pos p) =>
        nearestQuotient false p (Z.to_pos (10 ^ Z.of_nat (String.length frac)))
    | Some _ => zero
    | None => nan
    end.

(** ** Properties read off the specification *)

(** "pnl is present if and only if status ≠ Open and exitPrice is present" *)
Definition pnlIffClosedWithExit (t : Trade.t) : Prop :=
  is_Some (Trade.pnl t)
  ↔ Trade.status t ≠ Open ∧ is_Some (Trade.exitPrice t).

(** What the store maintains instead: an open trade has no pnl, and a closed
    trade whose exit price is a non-zero number has one. *)
Definition pnlTracksStatus (t : Trade.t) : Prop :=
  (Trade.status t = Open → Trade.pnl t = None)
  ∧ (∀ x, Trade.status t ≠ Open → Trade.exitPrice t = Some x →
          truthy x = true → is_Some (Trade.pnl t)).

(** The documented formula. *)
Definition pnlFormula (d : Direction) (entryPrice exitPrice size : float)
  : float :=
  match d with
  | LONG => ((exitPrice - entryPrice) / entryPrice * size)%float
  | SHORT => ((entryPrice - exitPrice) / entryPrice * size)%float
  end.

(** The documented status inference. *)
Definition inferredStatus (d : Direction) (entry exit : float) : Status :=
  match d with
  | LONG =>
      if (entry <? exit)%float then Win
      else if (exit <? entry)%float then Loss else Breakeven
  | SHORT =>
      if (exit <? entry)%float then Win
      else if (entry <? exit)%float then Loss else Breakeven
  end.

(** ** Sample data *)

Definition sampleTrade (d : Direction) (entry : float) (exit : option float)
    (size : float) (s : Status) : TradeData.t :=
  {| TradeData.date := "2024-01-01";
     TradeData.ticker := "BTC";
     TradeData.direction := d;
     TradeData.entryPrice := entry;
     TradeData.exitPrice := exit;
     TradeData.size := size;
     TradeData.status := s;
     TradeData.rationale := "breakout";
     TradeData.exitReason := None;
     TradeData.postExitReflection := None |}.

(** The update [{ exitPrice: p }]. *)
Definition updateExitPrice (p : option float) : TradeUpdates.t :=
  TradeUpdates.mk None None None None (Some p) None None None None None.

(** The update [{ exitPrice: p, status: s }]. *)
Definition updateExit (p : option float) (s : Status) : TradeUpdates.t :=
  TradeUpdates.mk None None None None (Some p) None (Some s) None None None.

Definition sampleEntry : JournalEntryData.t :=
  {| JournalEntryData.date := "2024-01-01";
     JournalEntryData.macroReview := "X";
     JournalEntryData.altsMarket := "Y";
     JournalEntryData.summary := "Z";
     JournalEntryData.sentiment := BULLISH |}.

Definition sampleForm (d : Direction) (entry : string) : FormData :=
  mkFormData "2024-01-01" "BTC" d entry "" "1000" Open "breakout" "" "".

Definition sampleItem (id token : string) (price : float) (a : AssetType)
  : PortfolioItem.t :=
  PortfolioItem.mk id token 1 price price Liquid (Some a).

(** A portfolio of one crypto and one stock holding, with ETH already
    priced. *)
Definition samplePortfolio : State :=
  mkState [] [sampleItem "p-1" "btc" 42000 Crypto;
              sampleItem "p-2" "AAPL" 190.12 Stock]
    [] false {[ "ETH" := 3000%float ]} None false ∅ [] 0.

(** A response carrying [{ BTC: { USD: 50000 } }]. *)
Definition sampleFetch (url : string) : option (list (string * option float)) :=
  Some [("BTC", Some 50000%float)].

(** The request throws. *)
Definition failingFetch (url : string) : option (list (string * option float)) :=
  None.

(** The sample portfolio as loaded, before any price is known. *)
Definition loadedPortfolio : State :=
  mkState [] [sampleItem "p-1" "btc" 42000 Crypto;
              sampleItem "p-2" "AAPL" 190.12 Stock]
    [] false ∅ None false ∅ [] 0.

(** [Math.random()] returning 0.5 at every call. *)
Definition sampleRandom (n : nat) : float := 0.5%float.

(** ** The trade form, continued: opening a trade and submitting *)

Section TradeFormSubmit.

(** Three builtins: [String.prototype.toUpperCase], [Number(s)] and
    [Number.prototype.toString]. *)
Variable toUpperCase : string → string.
Variable Number : string → float.
Variable numberToString : float → string.

(** [s || ''] on a string that may be [undefined]. *)
Definition orEmpty (s : option string) : string :=
  match s with
  | Some v => v
  | None => ""
  end.

(** [s || undefined] *)
Definition orUndefined (s : string) : option string :=
  if nonEmpty s then Some s else None.

(** The form [handleEdit] fills from a stored trade (it also sets
    [editingId] to the trade's id). *)
Definition handleEdit (trade : Trade.t) : FormData :=
  mkFormData (Trade.date trade) (Trade.ticker trade) (Trade.direction trade)
    (numberToString (Trade.entryPrice trade))
    (match Trade.exitPrice trade with
     | Some x => if truthy x then numberToString x else ""
     | None => ""
     end)
    (numberToString (Trade.size trade))
    (Trade.status trade) (Trade.rationale trade)
    (orEmpty (Trade.exitReason trade))
    (orEmpty (Trade.postExitReflection trade)).

(** The [payload] of [handleSubmit]. *)
Definition submitPayload (formData : FormData) : TradeData.t :=
  {| TradeData.date := date formData;
     TradeData.ticker := toUpperCase (ticker formData);
     TradeData.direction := direction formData;
     TradeData.entryPrice := Number (entryPrice formData);
     TradeData.exitPrice :=
       if nonEmpty (exitPrice formData)
       then Some (Number (exitPrice formData)) else None;
     TradeData.size := Number (size formData);
     TradeData.status := status formData;
     TradeData.rationale := rationale formData;
     TradeData.exitReason := orUndefined (exitReason formData);
     TradeData.postExitReflection :=
       orUndefined (postExitReflection formData) |}.

(** A payload seen as an update: it carries every key. *)
Definition fullUpdate (payload : TradeData.t) : TradeUpdates.t :=
  {| TradeUpdates.date := Some (TradeData.date payload);
     TradeUpdates.ticker := Some (TradeData.ticker payload);
     TradeUpdates.direction := Some (TradeData.direction payload);
     TradeUpdates.entryPrice := Some (TradeData.entryPrice payload);
     TradeUpdates.exitPrice := Some (TradeData.exitPrice payload);
     TradeUpdates.size := Some (TradeData.size payload);
     TradeUpdates.status := Some (TradeData.status payload);
     TradeUpdates.rationale := Some (TradeData.rationale payload);
     TradeUpdates.exitReason := Some (TradeData.exitReason payload);
     TradeUpdates.postExitReflection :=
       Some (TradeData.postExitReflection payload) |}.

(** [handleSubmit], as far as the store is concerned: [editTrade] when an
    id is being edited ([if (editingId)]: a non-empty string), [addTrade]
    otherwise. *)
Definition handleSubmit (isSupabaseConfigured supabase : bool)
    (uuid : string) (error : option string) (editingId : option string)
    (formData : FormData) (st : State) : State :=
  let payload := submitPayload formData in
  match editingId with
  | Some id =>
      if nonEmpty id
      then editTrade isSupabaseConfigured supabase error id
             (fullUpdate payload) st
      else addTrade isSupabaseConfigured supabase uuid error payload st
  | None => addTrade isSupabaseConfigured supabase uuid error payload st
  end.

End TradeFormSubmit.

(** ** The holding form ([PortfolioBreakdown]) *)

Module PortfolioBreakdown.

Record FormData := mkFormData {
  token : string;
  amount : string;
  buyPrice : string;
  currentPrice : string;
  category : Category;
  assetType : AssetType
}.

Section Form.

Variable toUpperCase : string → string.
Variable Number : string → float.
Variable numberToString : float → string.


(** The [payload] of [handleSubmit]. *)
Definition submitPayload (formData : FormData) : PortfolioItemData.t :=
  {| PortfolioItemData.token :=
       toUpperCase (token formData); (* Store tickers in upper case *)
     PortfolioItemData.amount := Number (amount formData);
     PortfolioItemData.buyPrice := Number (buyPrice formData);
     PortfolioItemData.currentPrice := Number (currentPrice formData);
     PortfolioItemData.category := category formData;
     PortfolioItemData.assetType := Some (assetType formData) |}.

(** A payload seen as an update: it carries every key. *)
Definition fullUpdate (payload : PortfolioItemData.t)
  : PortfolioItemUpdates.t :=
  {| PortfolioItemUpdates.token := Some (PortfolioItemData.token payload);
     PortfolioItemUpdates.amount := Some (PortfolioItemData.amount payload);
     PortfolioItemUpdates.buyPrice :=
       Some (PortfolioItemData.buyPrice payload);
     PortfolioItemUpdates.currentPrice :=
       Some (PortfolioItemData.currentPrice payload);
     PortfolioItemUpdates.category :=
       Some (PortfolioItemData.category payload);
     PortfolioItemUpdates.assetType := PortfolioItemData.assetType payload |}.

(** [handleSubmit], as far as the store is concerned. *)
Definition handleSubmit (isSupabaseConfigured supabase : bool)
    (uuid : string) (error : option string) (editingId : option string)
    (formData : FormData) (st : State) : State :=
  let payload := submitPayload formData in
  match editingId with
  | Some id =>
      if nonEmpty id
      then editPortfolioItem isSupabaseConfigured supabase error id
             (fullUpdate payload) st
      else addPortfolioItem isSupabaseConfigured supabase uuid error payload st
  | None => addPortfolioItem isSupabaseConfigured supabase uuid error payload st
  end.

End Form.

End PortfolioBreakdown.

(** ** Initial load ([fetchData]) *)

(** What [JSON.parse] reads back for a number [JSON.stringify] printed:
    NaN and the infinities print as [null], [-0] prints as [0], every other
    number is read back as it was. *)
Definition reparseNumber (x : float) : option float :=
  if is_finite x then Some (if is_zero x then 0%float else x) else None.

(** The same for a [number | null] field: [null] stays [null]. *)
Definition reparseNullable (x : option float) : option float :=
  match x with
  | Some v => reparseNumber v
  | None => None
  end.

(** A stored record read back. Strings and enumerations come back as they
    were and missing optional keys stay missing. A required number that
    comes back as [null] leaves the record types: such a record is not
    followed ([None]). *)
Definition reparseItem (it : PortfolioItem.t) : option PortfolioItem.t :=
  amount ← reparseNumber (PortfolioItem.amount it);
  buyPrice ← reparseNumber (PortfolioItem.buyPrice it);
  currentPrice ← reparseNumber (PortfolioItem.currentPrice it);
  Some (PortfolioItem.mk (PortfolioItem.id it) (PortfolioItem.token it)
          amount buyPrice currentPrice (PortfolioItem.category it)
          (PortfolioItem.assetType it)).

Definition reparseTrade (t : Trade.t) : option Trade.t :=
  entryPrice ← reparseNumber (Trade.entryPrice t);
  size ← reparseNumber (Trade.size t);
  Some (Trade.mk (Trade.id t) (Trade.date t) (Trade.ticker t)
          (Trade.direction t) entryPrice
          (reparseNullable (Trade.exitPrice t)) size
          (reparseNullable (Trade.pnl t)) (Trade.status t)
          (Trade.rationale t) (Trade.exitReason t)
          (Trade.postExitReflection t)).

(** What the remote reads of [fetchData] come to: one of the three awaited
    queries throws, or each hands back its [data] (an array, or [null]). *)
Inductive RemoteLoad :=
| LoadThrows
| Loaded (journalData : option (list JournalEntry.t))
    (portfolioData : option (list PortfolioItem.t))
    (tradesData : option (list Trade.t)).

Definition setLoading (b : bool) (st : State) : State :=
  mkState (journalEntries st) (portfolioItems st) (trades st) b
    (livePrices st) (lastUpdated st) (isRefreshing st) (localStorage st)
    (remoteCalls st) (pendingRefresh st).

Section InitialLoad.

Variables (isSupabaseConfigured supabase : bool).

(** The built-in samples of [constants.ts]. *)
Variable JOURNAL_ENTRIES : list JournalEntry.t.
Variable PORTFOLIO_ITEMS : list PortfolioItem.t.
Variable TRADES : list Trade.t.

(** [saved ? JSON.parse(saved) : DEFAULT] for each key. A text stored for
    another collection does not parse to records of this one and is not
    followed ([None]). *)
Definition parseJournal (saved : option Stored)
  : option (list JournalEntry.t) :=
  match saved with
  | None => Some JOURNAL_ENTRIES
  | Some (StoredJournal l) => Some l
  | Some _ => None
  end.

Definition parsePortfolio (saved : option Stored)
  : option (list PortfolioItem.t) :=
  match saved with
  | None => Some PORTFOLIO_ITEMS
  | Some (StoredPortfolio l) => mapM reparseItem l
  | Some _ => None
  end.

Definition parseTrades (saved : option Stored) : option (list Trade.t) :=
  match saved with
  | None => Some TRADES
  | Some (StoredTrades l) => mapM reparseTrade l
  | Some _ => None
  end.

(** [fetchData]. The reads of the remote path are not entered in
    [remoteCalls], which lists the writes. *)
Definition fetchData (remote : RemoteLoad) (st : State) : option State :=
  let st := setLoading true st in
  if isSupabaseConfigured && supabase then
    (* Fetch from Supabase *)
    let st :=
      match remote with
      | LoadThrows => st
      | Loaded journalData portfolioData tradesData =>
          let st :=
            match journalData with
            | Some l => setJournalEntries l st
            | None => st
            end in
          let st :=
            match portfolioData with
            | Some l => setPortfolioItems l st
            | None => st
            end in
          match tradesData with
          | Some l => setTrades l st
          | None => st
          end
      end in
    Some (setLoading false st)
  else
    (* Fallback to LocalStorage *)
    journal ← parseJournal (localStorage st !! "journalEntries");
    portfolio ← parsePortfolio (localStorage st !! "portfolioItems");
    saved ← parseTrades (localStorage st !! "trades");
    Some (setLoading false
            (setTrades saved
               (setPortfolioItems portfolio (setJournalEntries journal st)))).

End InitialLoad.

(** ** Properties of the store *)

(** The stored pnl is the one the store derives: none for an open trade,
    the formula for a closed trade with a non-zero exit price. *)
Definition pnlDerived (t : Trade.t) : Prop :=
  (Trade.status t = Open → Trade.pnl t = None)
  ∧ (∀ x, Trade.status t ≠ Open → Trade.exitPrice t = Some x →
          truthy x = true →
          Trade.pnl t
          = Some (pnlFormula (Trade.direction t) (Trade.entryPrice t) x
                    (Trade.size t))).

(** Local storage follows the cache since [st0]: each collection is stored
    under its key as it is now, or neither it nor its key has changed. *)
Definition storageFollows (st0 st : State) : Prop :=
  (localStorage st !! "journalEntries"
   = Some (StoredJournal (journalEntries st))
   ∨ (localStorage st !! "journalEntries" = localStorage st0 !! "journalEntries"
      ∧ journalEntries st = journalEntries st0))
  ∧ (localStorage st !! "portfolioItems"
     = Some (StoredPortfolio (portfolioItems st))
     ∨ (localStorage st !! "portfolioItems"
        = localStorage st0 !! "portfolioItems"
        ∧ portfolioItems st = portfolioItems st0))
  ∧ (localStorage st !! "trades" = Some (StoredTrades (trades st))
     ∨ (localStorage st !! "trades" = localStorage st0 !! "trades"
        ∧ trades st = trades st0)).

(** The collection a mutation is about. *)
Inductive Collection := Journal | Portfolio | Trades.

Definition target (m : Mutation) : Collection :=
  match m with
  | AddJournalEntry _ | DeleteJournalEntry _ => Journal
  | AddPortfolioItem _ | EditPortfolioItem _ _ | DeletePortfolioItem _ =>
      Portfolio
  | AddTrade _ | EditTrade _ _ | DeleteTrade _ | ClearTrades => Trades
  end.

(** ** More sample data *)

(** [Number.prototype.toString] on the non-negative integers below 2^53;
    other numbers, which print with a sign, a fraction or an exponent, are
    not covered and yield the text NaN here. *)
Definition integerToString (x : float) : string :=
  match Prim2SF x with
  | S754_zero _ => "0"
  | S754_finite false m e =>
      let n :=
        (if bool_decide (0 ≤ e) then Z.pos m * 2 ^ e
         else if bool_decide (Z.pos m `mod` 2 ^ (- e) = 0)
              then Z.pos m `div` 2 ^ (- e)
              else -1)%Z in
      if bool_decide (0 ≤ n < 2 ^ 53)%Z
      then NilZero.string_of_uint (N.to_uint (Z.to_N n))
      else "NaN"
  | _ => "NaN"
  end.

(** ** Basic facts about the mutations *)

Section ProviderFacts.

Variables (isSupabaseConfigured supabase : bool).

Local Abbreviation addTrade := (addTrade isSupabaseConfigured supabase).
Local Abbreviation editTrade := (editTrade isSupabaseConfigured supabase).
Local Abbreviation addJournalEntry := (addJournalEntry isSupabaseConfigured supabase).
Local Abbreviation call := (call isSupabaseConfigured supabase).
Local Abbreviation calls := (calls isSupabaseConfigured supabase).
Local Abbreviation written := (written isSupabaseConfigured supabase).

Lemma persistToLS_collections key data st :
  collections (persistToLS isSupabaseConfigured key data st) = collections st.
Proof. unfold persistToLS. by destruct isSupabaseConfigured. Qed.

Lemma persistToLS_trades key data st :
  trades (persistToLS isSupabaseConfigured key data st) = trades st.
Proof. unfold persistToLS. by destruct isSupabaseConfigured. Qed.

Lemma persistToLS_journalEntries key data st :
  journalEntries (persistToLS isSupabaseConfigured key data st)
  = journalEntries st.
Proof. unfold persistToLS. by destruct isSupabaseConfigured. Qed.

Lemma addTrade_trades uuid error tradeData st :
  trades (addTrade uuid error tradeData st)
  = if written error
    then addTrade_newTrade uuid tradeData :: trades st
    else trades st.
Proof.
  unfold addTrade, written.
  destruct (isSupabaseConfigured && supabase); simpl.
  - by destruct (noError error).
  - by rewrite persistToLS_trades.
Qed.

Lemma addJournalEntry_journalEntries uuid error entry st :
  journalEntries (addJournalEntry uuid error entry st)
  = if written error
    then addJournalEntry_newEntry uuid entry :: journalEntries st
    else journalEntries st.
Proof.
  unfold addJournalEntry, written.
  destruct (isSupabaseConfigured && supabase); simpl.
  - by destruct (noError error).
  - by rewrite persistToLS_journalEntries.
Qed.

Lemma editTrade_trades error id updates st currentTrade :
  List.find (fun t => bool_decide (Trade.id t = id)) (trades st)
  = Some currentTrade →
  trades (editTrade error id updates st)
  = if written error
    then List.map
           (fun t => if bool_decide (Trade.id t = id)
                     then editTrade_finalTrade currentTrade updates else t)
           (trades st)
    else trades st.
Proof.
  intros Hfind. unfold editTrade, written. rewrite Hfind.
  destruct (isSupabaseConfigured && supabase); simpl.
  - by destruct (noError error).
  - by rewrite persistToLS_trades.
Qed.

Lemma find_absent id (l : list Trade.t) :
  (∀ t, t ∈ l → Trade.id t ≠ id) →
  List.find (fun t => bool_decide (Trade.id t = id)) l = None.
Proof.
  induction l as [|t l IH]; intros Hl; simpl; [done|].
  rewrite bool_decide_eq_false_2.
  - apply IH. intros t' Ht'. apply Hl. by right.
  - apply Hl. by left.
Qed.

(** The pnl derivation on a closed record with a truthy exit price. *)
Lemma addTrade_pnl_closed uuid tradeData x :
  TradeData.status tradeData ≠ Open →
  TradeData.exitPrice tradeData = Some x →
  truthy x = true →
  Trade.pnl (addTrade_newTrade uuid tradeData)
  = Some (pnlFormula (TradeData.direction tradeData)
            (TradeData.entryPrice tradeData) x (TradeData.size tradeData)).
Proof.
  intros Hs Hx Ht. unfold addTrade_newTrade, pnlFormula; simpl.
  rewrite Hx; simpl. rewrite Ht, bool_decide_eq_false_2 by done; simpl.
  by destruct (TradeData.direction tradeData).
Qed.

Lemma editTrade_pnl_closed currentTrade mergedTrade x :
  Trade.status mergedTrade ≠ Open →
  Trade.exitPrice mergedTrade = Some x →
  truthy x = true →
  editTrade_pnl currentTrade mergedTrade
  = Some (pnlFormula (Trade.direction mergedTrade)
            (Trade.entryPrice mergedTrade) x (Trade.size mergedTrade)).
Proof.
  intros Hs Hx Ht. unfold editTrade_pnl, pnlFormula.
  rewrite Hx; simpl. rewrite Ht, bool_decide_eq_false_2 by done; simpl.
  by destruct (Trade.direction mergedTrade).
Qed.

Lemma editTrade_pnl_open currentTrade mergedTrade :
  Trade.status mergedTrade = Open →
  editTrade_pnl currentTrade mergedTrade = None.
Proof.
  intros Hs. unfold editTrade_pnl.
  by rewrite !bool_decide_eq_true_2 by done.
Qed.

Lemma editTrade_pnl_falsy currentTrade mergedTrade :
  Trade.status mergedTrade ≠ Open →
  truthyOpt (Trade.exitPrice mergedTrade) = false →
  editTrade_pnl currentTrade mergedTrade = Trade.pnl currentTrade.
Proof.
  intros Hs Hx. unfold editTrade_pnl.
  by rewrite Hx, andb_false_r, bool_decide_eq_false_2 by done.
Qed.

End ProviderFacts.

(** ** Numbers: a positive number is truthy *)

Lemma SFcompare_finite_refl s m e :
  SFcompare (S754_finite s m e) (S754_finite s m e) = Some Eq.
Proof.
  destruct s; simpl; rewrite Z.compare_refl;
    change (PosDef.Pos.compare_cont Eq m m) with (Pos.compare m m);
    by rewrite Pos.compare_refl.
Qed.

Lemma positive_truthy (x : float) : (0 <? x)%float = true → truthy x = true.
Proof.
  intros H. rewrite FloatAxioms.ltb_spec in H.
  unfold truthy, is_zero, is_nan. rewrite !FloatAxioms.eqb_spec.
  change (Prim2SF 0) with (S754_zero false) in *.
  change (Prim2SF zero) with (S754_zero false).
  unfold SFltb, SFeqb in *.
  destruct (Prim2SF x) as [s|s| |s m e].
  - done.
  - by destruct s.
  - done.
  - rewrite SFcompare_finite_refl. by destruct s.
Qed.

Lemma zero_falsy (x : float) : is_zero x = true → truthy x = false.
Proof. intros H. unfold truthy. by rewrite H. Qed.

(** ** The pnl derivation of [addTrade] and [editTrade] *)

(** C1, at an exit price of zero. A long position of size 1000 entered at 100
    and closed at 0 (status Loss): the documented formula gives
    [(0 - 100) / 100 * 1000 = -1000], but [addTrade] stores the trade without
    a pnl, and [editTrade] closing an open trade in the same way leaves the
    pnl absent: both test the exit price for truthiness, and 0 is falsy. *)
Theorem zero_exit_price_loses_pnl :
  let tradeData := sampleTrade LONG 100 (Some 0%float) 1000 Loss in
  let added := addTrade false false "id-1" None tradeData initialState in
  let opened :=
    addTrade false false "id-1" None (sampleTrade LONG 100 None 1000 Open)
      initialState in
  let edited :=
    editTrade false false None "id-1" (updateExit (Some 0%float) Loss) opened in
  pnlFormula LONG 100 0 1000 = (-1000)%float
  ∧ (∃ t, trades added = [t] ∧ Trade.status t = Loss
          ∧ Trade.exitPrice t = Some 0%float ∧ Trade.pnl t = None)
  ∧ (∃ t, trades edited = [t] ∧ Trade.status t = Loss
          ∧ Trade.exitPrice t = Some 0%float ∧ Trade.pnl t = None).
Proof.
  cbv zeta. split; [by vm_compute|].
  split; eexists; (split; [by vm_compute|]); by vm_compute.
Qed.

(** C8. The derivation divides by [entryPrice] whatever its value: for a
    closed trade with a zero entry price and a positive exit price,
    [addTrade] puts in the collection, and [editTrade] puts in place of the
    trade edited, a record whose pnl is the value of the formula with that
    zero as denominator. Nothing rejects, clamps or skips it. *)
Theorem pnl_divides_by_zero_entryPrice
    (isSupabaseConfigured supabase : bool) (uuid : string)
    (error : option string) (tradeData : TradeData.t) (id : string)
    (updates : TradeUpdates.t) (currentTrade : Trade.t) (st st' : State)
    (x y : float) :
  is_zero (TradeData.entryPrice tradeData) = true →
  TradeData.status tradeData ≠ Open →
  TradeData.exitPrice tradeData = Some x →
  (0 <? x)%float = true →
  List.find (fun t => bool_decide (Trade.id t = id)) (trades st')
  = Some currentTrade →
  is_zero (Trade.entryPrice (mergeTrade currentTrade updates)) = true →
  Trade.status (mergeTrade currentTrade updates) ≠ Open →
  Trade.exitPrice (mergeTrade currentTrade updates) = Some y →
  (0 <? y)%float = true →
  (Trade.pnl (addTrade_newTrade uuid tradeData)
   = Some (match TradeData.direction tradeData with
           | LONG => (x - TradeData.entryPrice tradeData)
                     / TradeData.entryPrice tradeData
                     * TradeData.size tradeData
           | SHORT => (TradeData.entryPrice tradeData - x)
                      / TradeData.entryPrice tradeData
                      * TradeData.size tradeData
           end)%float
   ∧ trades (addTrade isSupabaseConfigured supabase uuid error tradeData st)
     = if written isSupabaseConfigured supabase error
       then addTrade_newTrade uuid tradeData :: trades st
       else trades st)
  ∧ (Trade.pnl (editTrade_finalTrade currentTrade updates)
     = Some (let m := mergeTrade currentTrade updates in
             match Trade.direction m with
             | LONG => (y - Trade.entryPrice m) / Trade.entryPrice m
                       * Trade.size m
             | SHORT => (Trade.entryPrice m - y) / Trade.entryPrice m
                        * Trade.size m
             end)%float
     ∧ trades (editTrade isSupabaseConfigured supabase error id updates st')
       = if written isSupabaseConfigured supabase error
         then List.map
                (fun t => if bool_decide (Trade.id t = id)
                          then editTrade_finalTrade currentTrade updates
                          else t)
                (trades st')
         else trades st').
Proof.
  intros _ Hs Hx Hpos Hfind _ Hs' Hy Hpos'. split; split.
  - rewrite (addTrade_pnl_closed uuid tradeData x Hs Hx (positive_truthy x Hpos)).
    destruct (TradeData.direction tradeData); reflexivity.
  - apply addTrade_trades.
  - change (Trade.pnl (editTrade_finalTrade currentTrade updates))
      with (editTrade_pnl currentTrade (mergeTrade currentTrade updates)).
    rewrite (editTrade_pnl_closed _ _ y Hs' Hy (positive_truthy y Hpos')).
    cbv zeta. destruct (Trade.direction _); reflexivity.
  - by apply editTrade_trades.
Qed.

(** At entry 0 and exit 5 the stored pnl is infinite: [+∞] for the long
    trade added, [-∞] for the short one an edit closes. *)
Lemma pnl_divides_by_zero_entryPrice_witness :
  let tradeData := sampleTrade LONG 0 (Some 5%float) 100 Win in
  let currentTrade :=
    addTrade_newTrade "id-2" (sampleTrade SHORT 0 None 100 Open) in
  let st' :=
    addTrade false false "id-2" None (sampleTrade SHORT 0 None 100 Open)
      initialState in
  let updates := updateExit (Some 5%float) Loss in
  (Trade.pnl (addTrade_newTrade "id-1" tradeData) = Some infinity
   ∧ trades (addTrade false false "id-1" None tradeData initialState)
     = [addTrade_newTrade "id-1" tradeData])
  ∧ (Trade.pnl (editTrade_finalTrade currentTrade updates) = Some neg_infinity
     ∧ trades (editTrade false false None "id-2" updates st')
       = [editTrade_finalTrade currentTrade updates]).
Proof.
  cbv zeta.
  exact (pnl_divides_by_zero_entryPrice false false "id-1" None
           (sampleTrade LONG 0 (Some 5%float) 100 Win) "id-2"
           (updateExit (Some 5%float) Loss)
           (addTrade_newTrade "id-2" (sampleTrade SHORT 0 None 100 Open))
           initialState
           (addTrade false false "id-2" None
              (sampleTrade SHORT 0 None 100 Open) initialState)
           5%float 5%float
           eq_refl ltac:(discriminate) eq_refl eq_refl eq_refl
           eq_refl ltac:(discriminate) eq_refl eq_refl).
Defined.

(** C9. An exit price equal to zero ([0] or [-0]) counts as no exit price:
    [addTrade] stores a closed trade carrying it with no pnl, and
    [editTrade], when the merged record is closed and carries it, keeps the
    pnl stored before instead of applying the formula. *)
Theorem zero_exit_price_treated_as_absent
    (isSupabaseConfigured supabase : bool) (uuid : string)
    (error : option string) (tradeData : TradeData.t) (id : string)
    (updates : TradeUpdates.t) (currentTrade : Trade.t) (st st' : State)
    (x y : float) :
  TradeData.status tradeData ≠ Open →
  TradeData.exitPrice tradeData = Some x →
  is_zero x = true →
  List.find (fun t => bool_decide (Trade.id t = id)) (trades st')
  = Some currentTrade →
  Trade.status (mergeTrade currentTrade updates) ≠ Open →
  Trade.exitPrice (mergeTrade currentTrade updates) = Some y →
  is_zero y = true →
  (Trade.pnl (addTrade_newTrade uuid tradeData) = None
   ∧ trades (addTrade isSupabaseConfigured supabase uuid error tradeData st)
     = if written isSupabaseConfigured supabase error
       then addTrade_newTrade uuid tradeData :: trades st
       else trades st)
  ∧ (Trade.pnl (editTrade_finalTrade currentTrade updates)
     = Trade.pnl currentTrade
     ∧ trades (editTrade isSupabaseConfigured supabase error id updates st')
       = if written isSupabaseConfigured supabase error
         then List.map
                (fun t => if bool_decide (Trade.id t = id)
                          then editTrade_finalTrade currentTrade updates
                          else t)
                (trades st')
         else trades st').
Proof.
  intros Hs Hx Hz Hfind Hs' Hy Hz'. repeat split.
  - unfold addTrade_newTrade; simpl. rewrite Hx; simpl.
    by rewrite (zero_falsy x Hz), andb_false_r.
  - apply addTrade_trades.
  - change (Trade.pnl (editTrade_finalTrade currentTrade updates))
      with (editTrade_pnl currentTrade (mergeTrade currentTrade updates)).
    apply editTrade_pnl_falsy; [done|].
    rewrite Hy; simpl. by apply zero_falsy.
  - by apply editTrade_trades.
Qed.

Lemma zero_exit_price_treated_as_absent_witness :
  let tradeData := sampleTrade LONG 100 (Some 0%float) 1000 Loss in
  let st' :=
    addTrade false false "id-2" None
      (sampleTrade LONG 100 (Some 110%float) 1000 Win) initialState in
  let currentTrade :=
    addTrade_newTrade "id-2" (sampleTrade LONG 100 (Some 110%float) 1000 Win) in
  let updates := updateExitPrice (Some (-0)%float) in
  (Trade.pnl (addTrade_newTrade "id-1" tradeData) = None
   ∧ trades (addTrade false false "id-1" None tradeData initialState)
     = [addTrade_newTrade "id-1" tradeData])
  ∧ (Trade.pnl (editTrade_finalTrade currentTrade updates) = Some 100%float
     ∧ trades (editTrade false false None "id-2" updates st')
       = [editTrade_finalTrade currentTrade updates]).
Proof.
  cbv zeta.
  exact (zero_exit_price_treated_as_absent false false "id-1" None
           (sampleTrade LONG 100 (Some 0%float) 1000 Loss) "id-2"
           (updateExitPrice (Some (-0)%float))
           (addTrade_newTrade "id-2"
              (sampleTrade LONG 100 (Some 110%float) 1000 Win))
           initialState
           (addTrade false false "id-2" None
              (sampleTrade LONG 100 (Some 110%float) 1000 Win) initialState)
           0%float (-0)%float
           ltac:(discriminate) eq_refl eq_refl eq_refl
           ltac:(discriminate) eq_refl eq_refl).
Defined.

(** C10. [editTrade] on an id that no stored trade carries returns at once:
    no error is signalled and the whole state (collections, prices, local
    storage, remote requests, timers) is what it was. *)
Theorem editTrade_unknown_id_noop
    (isSupabaseConfigured supabase : bool) (error : option string)
    (id : string) (updates : TradeUpdates.t) (st : State) :
  (∀ t, t ∈ trades st → Trade.id t ≠ id) →
  editTrade isSupabaseConfigured supabase error id updates st = st.
Proof.
  intros Hid. unfold editTrade. by rewrite (find_absent id (trades st) Hid).
Qed.

Lemma editTrade_unknown_id_noop_witness :
  let st :=
    addTrade true true "id-1" None
      (sampleTrade LONG 100 (Some 110%float) 1000 Win) initialState in
  editTrade true true None "id-9" (updateExit (Some 90%float) Loss) st = st.
Proof.
  cbv zeta. apply editTrade_unknown_id_noop.
  intros t Ht. vm_compute in Ht.
  apply list_elem_of_singleton in Ht. subst t. vm_compute. discriminate.
Defined.

(** ** The pnl invariant *)

Lemma addTrade_newTrade_tracks uuid tradeData :
  pnlTracksStatus (addTrade_newTrade uuid tradeData).
Proof.
  split.
  - intros Hs. simpl in Hs. unfold addTrade_newTrade; simpl.
    by rewrite bool_decide_eq_true_2.
  - intros x Hs Hx Ht. simpl in Hs, Hx.
    rewrite (addTrade_pnl_closed uuid tradeData x Hs Hx Ht). by eexists.
Qed.

Lemma editTrade_finalTrade_tracks currentTrade updates :
  pnlTracksStatus (editTrade_finalTrade currentTrade updates).
Proof.
  change (editTrade_finalTrade currentTrade updates)
    with (withPnl (mergeTrade currentTrade updates)
            (editTrade_pnl currentTrade (mergeTrade currentTrade updates))).
  generalize (mergeTrade currentTrade updates). intros m. split.
  - intros Hs. simpl in Hs. simpl. by apply editTrade_pnl_open.
  - intros x Hs Hx Ht. simpl in Hs, Hx. simpl.
    rewrite (editTrade_pnl_closed currentTrade m x Hs Hx Ht). by eexists.
Qed.

Section Invariant.

Variables (isSupabaseConfigured supabase : bool).

Lemma call_trades_cases uuid error m st :
  let st' := call isSupabaseConfigured supabase uuid error m st in
  trades st' = trades st
  ∨ (∃ tradeData, trades st' = addTrade_newTrade uuid tradeData :: trades st)
  ∨ (∃ id currentTrade updates,
       trades st'
       = List.map
           (fun t => if bool_decide (Trade.id t = id)
                     then editTrade_finalTrade currentTrade updates else t)
           (trades st))
  ∨ (∃ keep, trades st' = List.filter keep (trades st))
  ∨ trades st' = [].
Proof.
  destruct m as [entry|id|it|id updates|id|tradeData|id updates|id| ]; simpl.
  - left. unfold addJournalEntry, persistToLS.
    by destruct isSupabaseConfigured, supabase, error.
  - left. unfold deleteJournalEntry, persistToLS.
    by destruct isSupabaseConfigured, supabase, error.
  - left. unfold addPortfolioItem, persistToLS.
    by destruct isSupabaseConfigured, supabase, error.
  - left. unfold editPortfolioItem, persistToLS.
    by destruct isSupabaseConfigured, supabase, error.
  - left. unfold deletePortfolioItem, persistToLS.
    by destruct isSupabaseConfigured, supabase, error.
  - rewrite addTrade_trades.
    destruct (written _ _ _); [right; left; by eexists | by left].
  - destruct (List.find (fun t => bool_decide (Trade.id t = id)) (trades st))
      as [currentTrade|] eqn:Hfind.
    + rewrite (editTrade_trades _ _ _ _ _ _ currentTrade Hfind).
      destruct (written _ _ _); [|by left].
      right; right; left. by eexists _, _, _.
    + left. unfold editTrade. by rewrite Hfind.
  - unfold deleteTrade, persistToLS.
    destruct isSupabaseConfigured, supabase, error; simpl;
      first [by left | right; right; right; left; by eexists].
  - unfold clearTrades, persistToLS.
    destruct isSupabaseConfigured, supabase, error; simpl;
      first [by left | by right; right; right; right].
Qed.

Lemma call_preserves_tracking uuid error m st :
  Forall pnlTracksStatus (trades st) →
  Forall pnlTracksStatus
    (trades (call isSupabaseConfigured supabase uuid error m st)).
Proof.
  intros Hinv.
  destruct (call_trades_cases uuid error m st)
    as [->|[[tradeData ->]|[(id & currentTrade & updates & ->)|[[keep ->]| ->]]]].
  - done.
  - constructor; [apply addTrade_newTrade_tracks | done].
  - apply Forall_forall. intros t Ht.
    apply list_elem_of_In, in_map_iff in Ht. destruct Ht as (t0 & <- & Ht0).
    case_bool_decide; [apply editTrade_finalTrade_tracks|].
    rewrite Forall_forall in Hinv. by apply Hinv, list_elem_of_In.
  - apply Forall_forall. intros t Ht.
    apply list_elem_of_In, filter_In in Ht. destruct Ht as [Ht _].
    rewrite Forall_forall in Hinv. by apply Hinv, list_elem_of_In.
  - constructor.
Qed.

End Invariant.

(** C2 as the specification words it fails: closing a trade stores its pnl,
    and an edit that then removes the exit price while the status stays Win
    keeps that pnl, so a stored trade has a pnl and no exit price. *)
Lemma pnl_kept_without_exit_price :
  let st :=
    calls false false
      [("id-1", None, AddTrade (sampleTrade LONG 100 (Some 110%float) 1000 Win));
       ("", None, EditTrade "id-1" (updateExitPrice None))]
      initialState in
  ∃ t, trades st = [t]
       ∧ Trade.status t = Win ∧ Trade.exitPrice t = None
       ∧ Trade.pnl t = Some 100%float
       ∧ ¬ pnlIffClosedWithExit t.
Proof.
  cbv zeta. eexists. split; [by vm_compute|].
  repeat split; try by vm_compute.
  unfold pnlIffClosedWithExit. intros [H _].
  destruct H as [_ [x Hx]]; [by eexists|]. vm_compute in Hx. discriminate.
Qed.

(** C2, amended. After any sequence of calls to the provider ([addTrade] and
    [editTrade] among them), started from a collection in which this holds
    (the empty one, say), every stored trade with status Open has no pnl,
    whatever its exit price, and every stored trade that is not Open and
    whose exit price is a non-zero number has a pnl. A record as [addTrade]
    creates it has a pnl only if it is not Open and has an exit price; an
    edit may leave a pnl on a closed trade without exit price. *)
Theorem pnl_tracks_status
    (isSupabaseConfigured supabase : bool)
    (l : list (string * option string * Mutation)) (st : State) :
  Forall pnlTracksStatus (trades st) →
  Forall pnlTracksStatus (trades (calls isSupabaseConfigured supabase l st))
  ∧ (∀ uuid tradeData,
       is_Some (Trade.pnl (addTrade_newTrade uuid tradeData)) →
       TradeData.status tradeData ≠ Open
       ∧ is_Some (TradeData.exitPrice tradeData)).
Proof.
  intros Hinv. split.
  - revert st Hinv.
    induction l as [|[[uuid error] m] l IH]; intros st Hinv; [done|].
    simpl. apply IH. by apply call_preserves_tracking.
  - intros uuid tradeData [p Hp]. unfold addTrade_newTrade in Hp; simpl in Hp.
    case_bool_decide; [done|]. split; [done|].
    by destruct (TradeData.exitPrice tradeData).
Qed.

Lemma pnl_tracks_status_witness :
  Forall pnlTracksStatus
    (trades
       (calls true true
          [("id-1", None, AddTrade (sampleTrade LONG 100 None 1000 Open));
           ("", None, EditTrade "id-1" (updateExit (Some 110%float) Win));
           ("id-2", Some "rejected",
            AddTrade (sampleTrade SHORT 50 (Some 40%float) 10 Win))]
          initialState)).
Proof.
  refine (proj1 (pnl_tracks_status true true _ initialState _)).
  vm_compute. constructor.
Defined.

(** ** Status inference *)

(** C3 as worded fails: [editTrade] handed [{ exitPrice: 110 }] for an open
    long trade entered at 100 stores status Open, where the comparison of
    exit and entry gives Win. *)
Lemma editTrade_keeps_status :
  let st :=
    calls false false
      [("id-1", None, AddTrade (sampleTrade LONG 100 None 1000 Open));
       ("", None, EditTrade "id-1" (updateExitPrice (Some 110%float)))]
      initialState in
  ∃ t, trades st = [t]
       ∧ Trade.direction t = LONG ∧ Trade.entryPrice t = 100%float
       ∧ Trade.exitPrice t = Some 110%float
       ∧ Trade.status t = Open
       ∧ inferredStatus LONG 100 110 = Win.
Proof.
  cbv zeta. eexists. split; [by vm_compute|]. repeat split; by vm_compute.
Qed.

(** C3, amended. [editTrade] never infers a status: the record it puts in
    place of the trade has the status of the update, or the stored one when
    the update names none. The comparison is made by the trade form: when an
    exit price is typed while the entry price field is filled,
    [handleExitPriceChange] sets the form's status to Win, Loss or Breakeven
    from exit against entry (for Short with Win and Loss exchanged). That
    form status is what a submit passes on: [handleSubmit] on a form being
    edited calls [editTrade] with a payload carrying it, and the record
    [editTrade] then stores has the inferred status and the typed exit
    price. *)
Theorem status_inferred_by_form
    (toUpperCase : string → string) (Number : string → float)
    (isSupabaseConfigured supabase : bool) (uuid : string)
    (error : option string) (id : string) (updates : TradeUpdates.t)
    (currentTrade : Trade.t) (price : string) (prev : FormData) (st : State) :
  List.find (fun t => bool_decide (Trade.id t = id)) (trades st)
  = Some currentTrade →
  nonEmpty id = true →
  nonEmpty price = true →
  nonEmpty (entryPrice prev) = true →
  let edited := editTrade_finalTrade currentTrade updates in
  let formData := handleExitPriceChange Number price prev in
  let payload := submitPayload toUpperCase Number formData in
  let submitted := editTrade_finalTrade currentTrade (fullUpdate payload) in
  let inferred :=
    inferredStatus (direction prev) (Number (entryPrice prev)) (Number price) in
  (trades (editTrade isSupabaseConfigured supabase error id updates st)
   = (if written isSupabaseConfigured supabase error
      then List.map
             (fun t => if bool_decide (Trade.id t = id) then edited else t)
             (trades st)
      else trades st)
   ∧ Trade.status edited
     = default (Trade.status currentTrade) (TradeUpdates.status updates))
  ∧ (status formData = inferred ∧ exitPrice formData = price)
  ∧ (TradeData.status payload = inferred
     ∧ TradeUpdates.status (fullUpdate payload) = Some inferred
     ∧ handleSubmit toUpperCase Number isSupabaseConfigured supabase uuid
         error (Some id) formData st
       = editTrade isSupabaseConfigured supabase error id (fullUpdate payload)
           st)
  ∧ (trades
       (handleSubmit toUpperCase Number isSupabaseConfigured supabase uuid
          error (Some id) formData st)
     = (if written isSupabaseConfigured supabase error
        then List.map
               (fun t => if bool_decide (Trade.id t = id) then submitted
                         else t)
               (trades st)
        else trades st)
     ∧ Trade.status submitted = inferred
     ∧ Trade.exitPrice submitted = Some (Number price)).
Proof.
  intros Hfind Hid Hp He edited formData payload submitted inferred.
  assert (status formData = inferred) as Hst.
  { subst formData inferred.
    unfold handleExitPriceChange, inferredStatus; simpl. by rewrite Hp, He. }
  split; [split; [by apply editTrade_trades | done]|].
  split; [split; [exact Hst | done]|].
  split.
  - split; [exact Hst|]. split; [exact (f_equal Some Hst)|].
    unfold handleSubmit. by rewrite Hid.
  - split.
    + unfold handleSubmit. rewrite Hid. by apply editTrade_trades.
    + split; [exact Hst|].
      change (Trade.exitPrice submitted)
        with (if nonEmpty price then Some (Number price) else None).
      by rewrite Hp.
Qed.

Lemma status_inferred_by_form_witness :
  let st :=
    addTrade false false "id-1" None (sampleTrade SHORT 100 None 1000 Open)
      initialState in
  let formData :=
    handleExitPriceChange decimalNumber "90" (sampleForm SHORT "100") in
  status formData = Win
  ∧ ∃ t, trades
           (handleSubmit asciiToUpperCase decimalNumber false false "" None
              (Some "id-1") formData st)
         = [t]
         ∧ Trade.status t = Win ∧ Trade.exitPrice t = Some 90%float.
Proof.
  cbv zeta.
  destruct (status_inferred_by_form asciiToUpperCase decimalNumber false false
              "" None "id-1" (updateExitPrice (Some 90%float))
              (addTrade_newTrade "id-1" (sampleTrade SHORT 100 None 1000 Open))
              "90" (sampleForm SHORT "100")
              (addTrade false false "id-1" None
                 (sampleTrade SHORT 100 None 1000 Open) initialState)
              eq_refl eq_refl eq_refl eq_refl)
    as (_ & [Hform _] & _ & Htrades & Hstatus & Hexit).
  split; [exact Hform|].
  eexists. split; [exact Htrades|]. split; [exact Hstatus | exact Hexit].
Defined.

(** The examples of the specification, typed into the form. *)
Example form_status_examples :
  let typed d price :=
    status (handleExitPriceChange decimalNumber price (sampleForm d "100")) in
  typed LONG "110" = Win ∧ typed LONG "90" = Loss
  ∧ typed LONG "100" = Breakeven
  ∧ typed SHORT "90" = Win ∧ typed SHORT "110" = Loss
  ∧ typed SHORT "" = Open.
Proof. cbv zeta. repeat split; by vm_compute. Qed.

(** ** Writes the remote backend rejects *)

(** C5. On the remote strategy, a mutation whose request comes back with an
    error leaves the three cached collections as they were, whichever of the
    nine mutations it is; local storage and the live prices are not touched
    either. (The request itself was sent, and [addPortfolioItem] and
    [editPortfolioItem] still schedule their price refresh.) *)
Theorem remote_error_leaves_cache
    (uuid message : string) (m : Mutation) (st : State) :
  let st' := call true true uuid (Some message) m st in
  collections st' = collections st
  ∧ journalEntries st' = journalEntries st
  ∧ portfolioItems st' = portfolioItems st
  ∧ trades st' = trades st
  ∧ localStorage st' = localStorage st
  ∧ livePrices st' = livePrices st.
Proof.
  destruct m as [entry|id|it|id updates|id|tradeData|id updates|id| ];
    try done.
  simpl. unfold editTrade.
  by destruct (List.find _ (trades st)).
Qed.

(** ** Adding a journal entry *)

(** C7 as worded fails on the remote strategy when the insert is rejected:
    the collection is then listed without the entry. *)
Lemma rejected_entry_not_listed :
  journalEntries
    (addJournalEntry true true "id-1" (Some "rejected") sampleEntry
       initialState)
  = [].
Proof. by vm_compute. Qed.

(** C7, amended. Whenever the write reaches the cache (local strategy, or
    remote insert without error), listing the journal after
    [addJournalEntry] yields first a record whose date, macroReview,
    altsMarket, summary and sentiment are those of the payload and whose id
    is the one generated during the call, then the entries listed before,
    unchanged. *)
Theorem addJournalEntry_front
    (isSupabaseConfigured supabase : bool) (uuid : string)
    (error : option string) (entry : JournalEntryData.t) (st : State) :
  written isSupabaseConfigured supabase error = true →
  ∃ newEntry,
    journalEntries
      (addJournalEntry isSupabaseConfigured supabase uuid error entry st)
    = newEntry :: journalEntries st
    ∧ JournalEntry.id newEntry = uuid
    ∧ JournalEntry.date newEntry = JournalEntryData.date entry
    ∧ JournalEntry.macroReview newEntry = JournalEntryData.macroReview entry
    ∧ JournalEntry.altsMarket newEntry = JournalEntryData.altsMarket entry
    ∧ JournalEntry.summary newEntry = JournalEntryData.summary entry
    ∧ JournalEntry.sentiment newEntry = JournalEntryData.sentiment entry.
Proof.
  intros Hw. exists (addJournalEntry_newEntry uuid entry).
  rewrite addJournalEntry_journalEntries, Hw. done.
Qed.

Lemma addJournalEntry_front_witness :
  ∃ newEntry,
    journalEntries
      (addJournalEntry false false "id-2" None sampleEntry
         (addJournalEntry true true "id-1" None sampleEntry initialState))
    = newEntry
      :: journalEntries
           (addJournalEntry true true "id-1" None sampleEntry initialState)
    ∧ JournalEntry.id newEntry = "id-2"
    ∧ JournalEntry.date newEntry = "2024-01-01"
    ∧ JournalEntry.macroReview newEntry = "X"
    ∧ JournalEntry.altsMarket newEntry = "Y"
    ∧ JournalEntry.summary newEntry = "Z"
    ∧ JournalEntry.sentiment newEntry = BULLISH.
Proof.
  exact (addJournalEntry_front false false "id-2" None sampleEntry
           (addJournalEntry true true "id-1" None sampleEntry initialState)
           eq_refl).
Defined.

(** ** Portfolio valuation *)

Lemma insertByValue_perm a rows : insertByValue a rows ≡ₚ a :: rows.
Proof.
  induction rows as [|b rows IH]; simpl; [done|].
  destruct (0 <? value b - value a)%float; [|done].
  rewrite IH. apply Permutation_swap.
Qed.

Lemma sortByValue_perm rows : sortByValue rows ≡ₚ rows.
Proof.
  induction rows as [|a rows IH]; simpl; [done|].
  rewrite insertByValue_perm. by constructor.
Qed.

(** C6. The price a holding is valued at is the live price found under its
    upper-cased token when the map has that key, and its stored
    [currentPrice] otherwise. The read builds new rows: each row carries the
    item as stored, and the rows of [dataByToken] are those of the stored
    items, in another order. *)
Theorem effective_price_live_or_fallback
    (toUpperCase : string → string) (prices : gmap string float)
    (it : PortfolioItem.t) (st : State) :
  effectivePrice (statsRow toUpperCase prices it)
  = match prices !! toUpperCase (PortfolioItem.token it) with
    | Some livePrice => livePrice
    | None => PortfolioItem.currentPrice it
    end
  ∧ value (statsRow toUpperCase prices it)
    = (effectivePrice (statsRow toUpperCase prices it)
       * PortfolioItem.amount it)%float
  ∧ item (statsRow toUpperCase prices it) = it
  ∧ dataByToken (stats toUpperCase st)
    ≡ₚ List.map (statsRow toUpperCase (livePrices st)) (portfolioItems st)
  ∧ List.map item (dataByToken (stats toUpperCase st)) ≡ₚ portfolioItems st.
Proof.
  repeat split.
  - apply sortByValue_perm.
  - unfold stats; simpl. rewrite sortByValue_perm, map_map; simpl.
    by rewrite map_id.
Qed.

(** Valuing the sample portfolio once BTC has a live price: BTC at 50000
    (live, found under the upper-cased token), AAPL at its stored 190.12. *)
Example stats_sample :
  let st := setPrices {[ "BTC" := 50000%float ]} 0 samplePortfolio in
  List.map (fun row => (PortfolioItem.token (item row), effectivePrice row,
                        isLive row))
    (dataByToken (stats asciiToUpperCase st))
  = [("btc", 50000%float, true); ("AAPL", 190.12%float, false)]
  ∧ totalValue (stats asciiToUpperCase st) = 50190.12%float.
Proof. cbv zeta. split; by vm_compute. Qed.

(** ** Price refresh *)

Lemma elem_of_filter_bool_early {A} (keep : A → bool) (l : list A) x :
  x ∈ List.filter keep l ↔ x ∈ l ∧ keep x = true.
Proof. rewrite !list_elem_of_In. apply filter_In. Qed.

Section PriceFeedFacts.

Variable toUpperCase : string → string.
Variable toFixed2 : float → float.

Local Abbreviation simulateStocks := (simulateStocks toFixed2).

Lemma mergeCrypto_acc data (a m : gmap string float) :
  mergeCrypto data (a ∪ m) = mergeCrypto data a ∪ m.
Proof.
  revert a. induction data as [|[k [v|]] data IH]; intros a; simpl; [done| |done].
  rewrite insert_union_l. apply IH.
Qed.

Lemma mergeCrypto_union data (m : gmap string float) :
  mergeCrypto data m = quotes data ∪ m.
Proof.
  unfold quotes. rewrite <- mergeCrypto_acc. by rewrite (left_id_L ∅ (∪)).
Qed.

(** A throw cuts the response. *)
Lemma mergeCrypto_cut pre ticker post (m : gmap string float) :
  mergeCrypto (pre ++ (ticker, None) :: post) m = mergeCrypto pre m.
Proof.
  revert m. induction pre as [|[k [v|]] pre IH]; intros m; simpl; try done.
  (* a throw inside [pre] cuts both alike *)
Qed.

Lemma mergeCrypto_other data (m : gmap string float) k :
  k ∉ data.*1 → mergeCrypto data m !! k = m !! k.
Proof.
  revert m. induction data as [|[k' [v|]] data IH]; intros m Hk; simpl;
    [done| |done].
  simpl in Hk. apply not_elem_of_cons in Hk as [Hne Hk].
  rewrite IH by done. by rewrite lookup_insert_ne.
Qed.

Lemma mergeCrypto_quote data (m : gmap string float) k v :
  NoDup data.*1 → (∀ e, e ∈ data → is_Some e.2) → (k, Some v) ∈ data →
  mergeCrypto data m !! k = Some v.
Proof.
  revert m. induction data as [|[k' o] data IH]; intros m Hnd Hall Hin.
  - by apply elem_of_nil in Hin.
  - simpl in Hnd. apply NoDup_cons in Hnd as [Hk' Hnd].
    destruct o as [v'|]; simpl.
    + apply elem_of_cons in Hin as [Heq|Hin].
      * injection Heq as <- <-.
        rewrite mergeCrypto_other by done. by rewrite lookup_insert_eq.
      * apply IH; [done| |done]. intros e He. apply Hall. by right.
    + destruct (Hall (k', None)) as [x Hx]; [by left | done].
Qed.

Lemma lastKnown_union (data m : gmap string float) it :
  data !! PortfolioItem.token it = None →
  lastKnown (data ∪ m) it = lastKnown m it.
Proof. intros H. unfold lastKnown. by rewrite lookup_union_r. Qed.

(** The stock loop does not read or write the keys of a crypto result that
    names none of the stock tokens. *)
Lemma simulateStocks_union random n stocks (data m : gmap string float) :
  (∀ it, it ∈ stocks → data !! PortfolioItem.token it = None) →
  simulateStocks random n stocks (data ∪ m)
  = data ∪ simulateStocks random n stocks m.
Proof.
  revert n m. induction stocks as [|it stocks IH]; intros n m Hd; [done|].
  simpl. rewrite lastKnown_union by (apply Hd; by left).
  rewrite insert_union_r by (apply Hd; by left).
  apply IH. intros it' Hit'. apply Hd. by right.
Qed.

Lemma simulateStocks_untouched random n stocks (m : gmap string float) k :
  k ∉ List.map PortfolioItem.token stocks →
  simulateStocks random n stocks m !! k = m !! k.
Proof.
  revert n m. induction stocks as [|it stocks IH]; intros n m Hk; [done|].
  simpl in *. apply not_elem_of_cons in Hk as [Hne Hk].
  rewrite IH by done. by rewrite lookup_insert_ne.
Qed.

Lemma simulateStocks_keeps random n stocks (m : gmap string float) k :
  is_Some (m !! k) → is_Some (simulateStocks random n stocks m !! k).
Proof.
  revert n m. induction stocks as [|it stocks IH]; intros n m Hk; [done|].
  simpl. apply IH. rewrite lookup_insert. case_decide; [by eexists | done].
Qed.

Lemma simulateStocks_touched random n stocks (m : gmap string float) k :
  k ∈ List.map PortfolioItem.token stocks →
  is_Some (simulateStocks random n stocks m !! k).
Proof.
  revert n m. induction stocks as [|it stocks IH]; intros n m Hk; simpl in *.
  - by apply elem_of_nil in Hk.
  - apply elem_of_cons in Hk as [->|Hk]; [|by apply IH].
    apply simulateStocks_keeps. rewrite lookup_insert_eq. by eexists.
Qed.

Lemma refreshPrices_livePrices captured fetch random now st :
  portfolioItems captured ≠ [] →
  livePrices (refreshPrices toUpperCase toFixed2 captured fetch random now st)
  = simulateStocks random 0 (stockItems (portfolioItems captured))
      (fetched toUpperCase fetch (portfolioItems captured)
       ∪ livePrices captured).
Proof.
  intros Hne. unfold refreshPrices, fetched.
  rewrite bool_decide_eq_false_2 by (by destruct (portfolioItems captured)).
  simpl. case_bool_decide.
  - destruct (fetch _); simpl; [by rewrite mergeCrypto_union|].
    by rewrite (left_id_L ∅ (∪)).
  - by rewrite (left_id_L ∅ (∪)).
Qed.

Lemma refreshPrices_stamps captured fetch random now st :
  portfolioItems captured ≠ [] →
  lastUpdated (refreshPrices toUpperCase toFixed2 captured fetch random now st)
  = Some now
  ∧ isRefreshing
      (refreshPrices toUpperCase toFixed2 captured fetch random now st)
    = false
  ∧ collections
      (refreshPrices toUpperCase toFixed2 captured fetch random now st)
    = collections st.
Proof.
  intros Hne. unfold refreshPrices.
  by rewrite bool_decide_eq_false_2 by (by destruct (portfolioItems captured)).
Qed.

Lemma elem_of_stockItems_iff (items : list PortfolioItem.t) it :
  it ∈ stockItems items
  ↔ it ∈ items ∧ PortfolioItem.assetType it = Some Stock.
Proof.
  unfold stockItems. rewrite elem_of_filter_bool_early. unfold isCrypto.
  destruct (PortfolioItem.assetType it) as [[]|]; simpl;
    intuition congruence.
Qed.

End PriceFeedFacts.

(** C4, on the polling timer. The portfolio holds BTC (crypto) and AAPL
    (stock) and is loaded with no price known. The polling effect first
    calls the callback of that render, and the feed answers BTC at 50000:
    the map is BTC 50000, AAPL 190.12. Fifteen seconds later the interval
    calls the same callback again, and this time the request fails. The
    claim keeps BTC at 50000, a key of the previous map that is in neither
    result. The callback still holds the empty map of the render it was made
    in, and what it writes replaces the map: BTC is gone. Called through
    the callback of the current render (the refresh button), the same
    failed cycle keeps BTC. *)
Theorem stale_refresh_drops_prices :
  let first :=
    refreshPrices asciiToUpperCase toFixed2_binary64 loadedPortfolio
      sampleFetch sampleRandom 1700000000000 loadedPortfolio in
  let tick :=
    refreshPrices asciiToUpperCase toFixed2_binary64 loadedPortfolio
      failingFetch sampleRandom 1700000015000 first in
  let button :=
    refreshPrices asciiToUpperCase toFixed2_binary64 first
      failingFetch sampleRandom 1700000015000 first in
  livePrices first = {[ "BTC" := 50000%float; "AAPL" := 190.12%float ]}
  ∧ fetched asciiToUpperCase failingFetch (portfolioItems loadedPortfolio) = ∅
  ∧ List.map PortfolioItem.token (stockItems (portfolioItems loadedPortfolio))
    = ["AAPL"]
  ∧ livePrices tick = {[ "AAPL" := 190.12%float ]}
  ∧ livePrices tick !! "BTC" = None
  ∧ livePrices button = {[ "BTC" := 50000%float; "AAPL" := 190.12%float ]}.
Proof. cbv zeta. repeat split; by vm_compute. Qed.

(** X14. What a run of [refreshPrices] writes is the map its callback
    captured, with the quotes of the feed merged in and then the synthesized
    prices: the synthesized keys are the tokens of the captured holdings of
    asset type Stock, a request is made exactly when there is a crypto
    ticker, every key of either result is present afterwards, a fetched key
    that is no stock token holds the fetched price, and a key of neither
    result has the captured value. When no stock token is a key of the
    crypto result, merging in the other order yields the same map. The map
    of the state the run completes in is not read: it is replaced. *)
Theorem refreshPrices_merges_additively
    (toUpperCase : string → string) (toFixed2 : float → float)
    (captured : State)
    (fetch : string → option (list (string * option float)))
    (random : nat → float) (now : Z) (st st'' : State) :
  portfolioItems captured ≠ [] →
  let tickers := cryptoTickers toUpperCase (portfolioItems captured) in
  let data := fetched toUpperCase fetch (portfolioItems captured) in
  let stocks := stockItems (portfolioItems captured) in
  let tokens := List.map PortfolioItem.token stocks in
  let st' := refreshPrices toUpperCase toFixed2 captured fetch random now st in
  (∀ it, it ∈ stocks
         ↔ it ∈ portfolioItems captured
           ∧ PortfolioItem.assetType it = Some Stock)
  ∧ (tickers = [] → data = ∅)
  ∧ (tickers ≠ [] →
     data = match fetch (priceUrl tickers) with
            | Some response => quotes response
            | None => ∅
            end)
  ∧ livePrices st'
    = simulateStocks toFixed2 random 0 stocks (data ∪ livePrices captured)
  ∧ (∀ k, is_Some (data !! k) ∨ k ∈ tokens → is_Some (livePrices st' !! k))
  ∧ (∀ k v, data !! k = Some v → k ∉ tokens → livePrices st' !! k = Some v)
  ∧ (∀ k, data !! k = None → k ∉ tokens →
          livePrices st' !! k = livePrices captured !! k)
  ∧ ((∀ it, it ∈ stocks → data !! PortfolioItem.token it = None) →
     livePrices st'
     = data ∪ simulateStocks toFixed2 random 0 stocks (livePrices captured))
  ∧ livePrices st'
    = livePrices
        (refreshPrices toUpperCase toFixed2 captured fetch random now st'')
  ∧ lastUpdated st' = Some now
  ∧ collections st' = collections st.
Proof.
  intros Hne tickers data stocks tokens st'.
  pose proof (refreshPrices_livePrices toUpperCase toFixed2 captured fetch
                random now st Hne) as Hlive.
  fold data stocks st' in Hlive.
  split; [intros it; apply elem_of_stockItems_iff|].
  split.
  { intros Hnone. subst data. unfold fetched. fold tickers. by rewrite Hnone. }
  split.
  { intros Hsome. subst data. unfold fetched. fold tickers.
    rewrite bool_decide_eq_true_2; [done|].
    destruct tickers; [done | simpl; lia]. }
  split; [done|]. rewrite Hlive.
  split; [|split; [|split; [|split; [|split]]]].
  - intros k [Hk|Hk].
    + apply simulateStocks_keeps. destruct Hk as [v Hv].
      exists v. by apply lookup_union_Some_l.
    + by apply simulateStocks_touched.
  - intros k v Hv Hk. rewrite simulateStocks_untouched by done.
    by apply lookup_union_Some_l.
  - intros k Hd Hk. rewrite simulateStocks_untouched by done.
    by rewrite lookup_union_r.
  - intros Hdisj. by apply simulateStocks_union.
  - by rewrite refreshPrices_livePrices.
  - subst st'.
    destruct (refreshPrices_stamps toUpperCase toFixed2 captured fetch random
                now st Hne) as (H1 & _ & H2).
    done.
Qed.

(** The example of the specification: ETH is priced at 3000, the feed
    answers BTC at 50000 and the walk leaves AAPL at 190.12. *)
Example refreshPrices_sample :
  let st' :=
    refreshPrices asciiToUpperCase toFixed2_binary64 samplePortfolio
      sampleFetch sampleRandom 1700000000000 samplePortfolio in
  priceUrl (cryptoTickers asciiToUpperCase (portfolioItems samplePortfolio))
  = "https://min-api.cryptocompare.com/data/pricemulti?fsyms=BTC&tsyms=USD"
  ∧ livePrices st'
    = {[ "ETH" := 3000%float; "BTC" := 50000%float; "AAPL" := 190.12%float ]}
  ∧ mergeCrypto [("BTC", Some 50000%float)]
      (simulateStocks toFixed2_binary64 sampleRandom 0
         (stockItems (portfolioItems samplePortfolio)) {[ "ETH" := 3000%float ]})
    = {[ "ETH" := 3000%float; "BTC" := 50000%float; "AAPL" := 190.12%float ]}.
Proof. cbv zeta. repeat split; by vm_compute. Qed.

Lemma refreshPrices_merges_additively_witness :
  let st' :=
    refreshPrices asciiToUpperCase toFixed2_binary64 samplePortfolio
      sampleFetch sampleRandom 1700000000000 loadedPortfolio in
  livePrices st' !! "ETH" = Some 3000%float
  ∧ livePrices st' !! "BTC" = Some 50000%float
  ∧ is_Some (livePrices st' !! "AAPL")
  ∧ livePrices st'
    = fetched asciiToUpperCase sampleFetch (portfolioItems samplePortfolio)
      ∪ simulateStocks toFixed2_binary64 sampleRandom 0
          (stockItems (portfolioItems samplePortfolio))
          (livePrices samplePortfolio).
Proof.
  cbv zeta.
  destruct (refreshPrices_merges_additively asciiToUpperCase toFixed2_binary64
              samplePortfolio sampleFetch sampleRandom 1700000000000
              loadedPortfolio loadedPortfolio ltac:(discriminate))
    as (_ & _ & _ & _ & Hpresent & Hfetched & Hkept & Hswap & _).
  split; [|split; [|split]].
  - rewrite Hkept; [reflexivity | reflexivity |].
    vm_compute. intros H. apply list_elem_of_singleton in H. discriminate.
  - apply Hfetched; [reflexivity|].
    vm_compute. intros H. apply list_elem_of_singleton in H. discriminate.
  - apply Hpresent. right. vm_compute. by left.
  - apply Hswap. intros it Hit. vm_compute in Hit.
    apply list_elem_of_singleton in Hit. subst it. reflexivity.
Defined.

(** ** Further properties of the mutations *)

Lemma filter_sublist {A} (keep : A → bool) (l : list A) :
  List.filter keep l `sublist_of` l.
Proof.
  induction l as [|x l IH]; simpl; [done|].
  destruct (keep x); by constructor.
Qed.

Lemma filter_all {A} (keep : A → bool) (l : list A) :
  (∀ x, x ∈ l → keep x = true) → List.filter keep l = l.
Proof.
  induction l as [|x l IH]; intros Hl; simpl; [done|].
  rewrite Hl by (by left). f_equal. apply IH. intros y Hy. apply Hl. by right.
Qed.

Lemma elem_of_filter_bool {A} (keep : A → bool) (l : list A) x :
  x ∈ List.filter keep l ↔ x ∈ l ∧ keep x = true.
Proof. rewrite !list_elem_of_In. apply filter_In. Qed.

Lemma elem_of_filter_other_id {A} (getId : A → string) (id : string)
    (l : list A) x :
  x ∈ List.filter (fun y => negb (bool_decide (getId y = id))) l
  ↔ x ∈ l ∧ getId x ≠ id.
Proof.
  rewrite elem_of_filter_bool, negb_true_iff, bool_decide_eq_false. done.
Qed.

Section MutationFacts.

Variables (isSupabaseConfigured supabase : bool).

Local Abbreviation written := (written isSupabaseConfigured supabase).
Local Abbreviation call := (call isSupabaseConfigured supabase).
Local Abbreviation calls := (calls isSupabaseConfigured supabase).

Lemma deleteTrade_trades error id st :
  trades (deleteTrade isSupabaseConfigured supabase error id st)
  = if written error
    then List.filter (fun t => negb (bool_decide (Trade.id t = id))) (trades st)
    else trades st.
Proof.
  unfold deleteTrade, written, persistToLS.
  by destruct isSupabaseConfigured, supabase, error.
Qed.

Lemma deletePortfolioItem_portfolioItems error id st :
  portfolioItems (deletePortfolioItem isSupabaseConfigured supabase error id st)
  = if written error
    then List.filter (fun it => negb (bool_decide (PortfolioItem.id it = id)))
           (portfolioItems st)
    else portfolioItems st.
Proof.
  unfold deletePortfolioItem, written, persistToLS.
  by destruct isSupabaseConfigured, supabase, error.
Qed.

Lemma deleteJournalEntry_journalEntries error id st :
  journalEntries (deleteJournalEntry isSupabaseConfigured supabase error id st)
  = if written error
    then List.filter (fun e => negb (bool_decide (JournalEntry.id e = id)))
           (journalEntries st)
    else journalEntries st.
Proof.
  unfold deleteJournalEntry, written, persistToLS.
  by destruct isSupabaseConfigured, supabase, error.
Qed.

Lemma addPortfolioItem_portfolioItems uuid error it st :
  portfolioItems (addPortfolioItem isSupabaseConfigured supabase uuid error it st)
  = if written error
    then addPortfolioItem_newItem uuid it :: portfolioItems st
    else portfolioItems st.
Proof.
  unfold addPortfolioItem, written, persistToLS.
  by destruct isSupabaseConfigured, supabase, error.
Qed.

Lemma editPortfolioItem_portfolioItems error id updates st :
  portfolioItems
    (editPortfolioItem isSupabaseConfigured supabase error id updates st)
  = if written error
    then List.map
           (fun it => if bool_decide (PortfolioItem.id it = id)
                      then mergePortfolioItem it updates else it)
           (portfolioItems st)
    else portfolioItems st.
Proof.
  unfold editPortfolioItem, written, persistToLS.
  by destruct isSupabaseConfigured, supabase, error.
Qed.

End MutationFacts.

(** X1. A delete that reaches the cache removes the records carrying the
    id and nothing else: the records left are those with another id, in the
    order they had. The same holds in each of the three collections, and
    deleting a portfolio item leaves the live prices alone. *)
Theorem delete_removes_exactly
    (isSupabaseConfigured supabase : bool) (error : option string)
    (id : string) (st : State) :
  written isSupabaseConfigured supabase error = true →
  let afterTrade := deleteTrade isSupabaseConfigured supabase error id st in
  let afterItem :=
    deletePortfolioItem isSupabaseConfigured supabase error id st in
  let afterEntry :=
    deleteJournalEntry isSupabaseConfigured supabase error id st in
  ((∀ t, t ∈ trades afterTrade ↔ t ∈ trades st ∧ Trade.id t ≠ id)
   ∧ trades afterTrade `sublist_of` trades st)
  ∧ ((∀ it, it ∈ portfolioItems afterItem
            ↔ it ∈ portfolioItems st ∧ PortfolioItem.id it ≠ id)
     ∧ portfolioItems afterItem `sublist_of` portfolioItems st
     ∧ livePrices afterItem = livePrices st)
  ∧ ((∀ e, e ∈ journalEntries afterEntry
           ↔ e ∈ journalEntries st ∧ JournalEntry.id e ≠ id)
     ∧ journalEntries afterEntry `sublist_of` journalEntries st).
Proof.
  intros Hw afterTrade afterItem afterEntry.
  subst afterTrade afterItem afterEntry.
  rewrite deleteTrade_trades, deletePortfolioItem_portfolioItems,
    deleteJournalEntry_journalEntries, Hw.
  split; [|split].
  - split; [|apply filter_sublist].
    intros t. apply (elem_of_filter_other_id Trade.id).
  - split; [|split; [apply filter_sublist|]].
    + intros it. apply (elem_of_filter_other_id PortfolioItem.id).
    + unfold deletePortfolioItem, persistToLS.
      by destruct isSupabaseConfigured, supabase, error.
  - split; [|apply filter_sublist].
    intros e. apply (elem_of_filter_other_id JournalEntry.id).
Qed.

Lemma delete_removes_exactly_witness :
  let st :=
    calls false false
      [("id-1", None, AddTrade (sampleTrade LONG 100 None 1000 Open));
       ("id-2", None, AddTrade (sampleTrade SHORT 50 None 10 Open))]
      samplePortfolio in
  trades (deleteTrade false false None "id-1" st)
    `sublist_of` trades st
  ∧ portfolioItems (deletePortfolioItem false false None "p-1" st)
    `sublist_of` portfolioItems st.
Proof.
  cbv zeta. split.
  - apply (delete_removes_exactly false false None "id-1" _ eq_refl).
  - apply (delete_removes_exactly false false None "p-1" _ eq_refl).
Defined.

(** X2. A mutation touches one collection only: whatever the backend and
    its answer, the two collections it is not about are left as they were,
    and so are the live prices and the time of their last update. *)
Theorem call_touches_only_its_collection
    (isSupabaseConfigured supabase : bool) (uuid : string)
    (error : option string) (m : Mutation) (st : State) :
  let st' := call isSupabaseConfigured supabase uuid error m st in
  match target m with
  | Journal =>
      portfolioItems st' = portfolioItems st ∧ trades st' = trades st
  | Portfolio =>
      journalEntries st' = journalEntries st ∧ trades st' = trades st
  | Trades =>
      journalEntries st' = journalEntries st
      ∧ portfolioItems st' = portfolioItems st
  end
  ∧ livePrices st' = livePrices st
  ∧ lastUpdated st' = lastUpdated st.
Proof.
  destruct m as [entry|id|it|id updates|id|tradeData|id updates|id| ]; simpl;
    unfold addJournalEntry, deleteJournalEntry, addPortfolioItem,
      editPortfolioItem, deletePortfolioItem, addTrade, editTrade,
      deleteTrade, clearTrades, persistToLS;
    try (by destruct isSupabaseConfigured, supabase, error).
  destruct (List.find _ (trades st)); [|done].
  by destruct isSupabaseConfigured, supabase, error.
Qed.

(** X3. Without a remote client (not configured, or no client object) no
    request is ever sent: after any sequence of calls the list of remote
    requests is the one before. *)
Theorem local_strategy_sends_nothing
    (isSupabaseConfigured supabase : bool)
    (l : list (string * option string * Mutation)) (st : State) :
  isSupabaseConfigured && supabase = false →
  remoteCalls (calls isSupabaseConfigured supabase l st) = remoteCalls st.
Proof.
  intros Hlocal. revert st.
  induction l as [|[[uuid error] m] l IH]; intros st; [done|].
  simpl. rewrite IH. clear IH.
  destruct m as [entry|id|it|id updates|id|tradeData|id updates|id| ]; simpl;
    unfold addJournalEntry, deleteJournalEntry, addPortfolioItem,
      editPortfolioItem, deletePortfolioItem, addTrade, editTrade,
      deleteTrade, clearTrades, persistToLS; rewrite ?Hlocal;
    try (by destruct isSupabaseConfigured).
  destruct (List.find _ (trades st)); [|done].
  by destruct isSupabaseConfigured.
Qed.

Lemma local_strategy_sends_nothing_witness :
  remoteCalls
    (calls true false
       [("id-1", None, AddTrade (sampleTrade LONG 100 None 1000 Open));
        ("", None, EditTrade "id-1" (updateExit (Some 110%float) Win));
        ("", None, ClearTrades)]
       initialState)
  = remoteCalls initialState.
Proof. exact (local_strategy_sends_nothing true false _ initialState eq_refl). Defined.

(** X4. When the remote backend is configured, local storage is never
    written, by any sequence of calls, whether the requests succeed or not
    and even when no client object exists (in which case, by X3, nothing is
    persisted anywhere although the cache is updated). *)
Theorem configured_never_writes_localStorage
    (isSupabaseConfigured supabase : bool)
    (l : list (string * option string * Mutation)) (st : State) :
  isSupabaseConfigured = true →
  localStorage (calls isSupabaseConfigured supabase l st) = localStorage st.
Proof.
  intros ->. revert st.
  induction l as [|[[uuid error] m] l IH]; intros st; [done|].
  simpl. rewrite IH. clear IH.
  destruct m as [entry|id|it|id updates|id|tradeData|id updates|id| ]; simpl;
    unfold addJournalEntry, deleteJournalEntry, addPortfolioItem,
      editPortfolioItem, deletePortfolioItem, addTrade, editTrade,
      deleteTrade, clearTrades, persistToLS;
    try (by destruct supabase, error).
  destruct (List.find _ (trades st)); [|done].
  by destruct supabase, error.
Qed.

Lemma configured_never_writes_localStorage_witness :
  localStorage
    (calls true false
       [("id-1", None, AddTrade (sampleTrade LONG 100 None 1000 Open));
        ("e-1", None, AddJournalEntry sampleEntry)]
       initialState)
  = localStorage initialState
  ∧ trades
      (calls true false
         [("id-1", None, AddTrade (sampleTrade LONG 100 None 1000 Open));
          ("e-1", None, AddJournalEntry sampleEntry)]
         initialState)
    = [addTrade_newTrade "id-1" (sampleTrade LONG 100 None 1000 Open)].
Proof.
  split.
  - exact (configured_never_writes_localStorage true false _ initialState
             eq_refl).
  - by vm_compute.
Defined.

(** ** Local storage follows the cache *)

Lemma storageFollows_refl st : storageFollows st st.
Proof. unfold storageFollows. by repeat split; right. Qed.

Lemma call_storageFollows supabase uuid error m st0 st :
  storageFollows st0 st →
  storageFollows st0 (call false supabase uuid error m st).
Proof.
  intros (Hj & Hp & Ht). unfold storageFollows.
  destruct m as [entry|id|it|id updates|id|tradeData|id updates|id| ]; simpl;
    unfold addJournalEntry, deleteJournalEntry, addPortfolioItem,
      editPortfolioItem, deletePortfolioItem, addTrade, editTrade,
      deleteTrade, clearTrades, persistToLS; simpl;
    try destruct (List.find _ (trades st)); simpl;
    rewrite ?lookup_insert_eq, ?lookup_insert_ne by done;
    repeat split; first [by left | done].
Qed.

Lemma calls_storageFollows supabase l st0 st :
  storageFollows st0 st →
  storageFollows st0 (calls false supabase l st).
Proof.
  revert st. induction l as [|[[uuid error] m] l IH]; intros st Hst; [done|].
  simpl. apply IH. by apply call_storageFollows.
Qed.

(** X5. On the local strategy local storage never holds a stale copy:
    after any sequence of calls, each collection is stored under its key
    exactly as the cache has it, unless no call has written it, in which
    case both the collection and what its key holds are what they were. *)
Theorem local_storage_follows_cache
    (supabase : bool) (l : list (string * option string * Mutation))
    (st : State) :
  storageFollows st (calls false supabase l st).
Proof. apply calls_storageFollows, storageFollows_refl. Qed.

(** ** Edits keep the ids *)

Lemma find_id_some id (l : list Trade.t) t :
  List.find (fun t => bool_decide (Trade.id t = id)) l = Some t →
  Trade.id t = id.
Proof.
  intros H. apply find_some in H as [_ H]. by apply bool_decide_eq_true in H.
Qed.

(** X6. An edit changes no id and moves no record: the list of ids of the
    collection is the same after [editTrade] and after
    [editPortfolioItem], and a record with another id is found unchanged at
    its place. *)
Theorem edits_keep_ids
    (isSupabaseConfigured supabase : bool) (error : option string)
    (id : string) (tradeUpdates : TradeUpdates.t)
    (itemUpdates : PortfolioItemUpdates.t) (st : State) :
  let afterTrade :=
    editTrade isSupabaseConfigured supabase error id tradeUpdates st in
  let afterItem :=
    editPortfolioItem isSupabaseConfigured supabase error id itemUpdates st in
  (List.map Trade.id (trades afterTrade) = List.map Trade.id (trades st)
   ∧ ∀ i t, trades st !! i = Some t → Trade.id t ≠ id →
            trades afterTrade !! i = Some t)
  ∧ (List.map PortfolioItem.id (portfolioItems afterItem)
     = List.map PortfolioItem.id (portfolioItems st)
     ∧ ∀ i it, portfolioItems st !! i = Some it → PortfolioItem.id it ≠ id →
               portfolioItems afterItem !! i = Some it).
Proof.
  cbv zeta. split.
  - destruct (List.find (fun t => bool_decide (Trade.id t = id)) (trades st))
      as [currentTrade|] eqn:Hfind.
    + rewrite (editTrade_trades _ _ _ _ _ _ currentTrade Hfind).
      destruct (written _ _ _); [|done]. split.
      * rewrite map_map. apply map_ext. intros t.
        case_bool_decide; [|done]. simpl.
        by rewrite (find_id_some _ _ _ Hfind).
      * intros i t Hi Hid. change (List.map ?f ?l) with (f <$> l).
        rewrite list_lookup_fmap, Hi. simpl.
        by rewrite bool_decide_eq_false_2.
    + unfold editTrade. by rewrite Hfind.
  - rewrite editPortfolioItem_portfolioItems.
    destruct (written _ _ _); [|done]. split.
    + rewrite map_map. apply map_ext. intros it. by case_bool_decide.
    + intros i it Hi Hid. change (List.map ?f ?l) with (f <$> l).
      rewrite list_lookup_fmap, Hi. simpl.
      by rewrite bool_decide_eq_false_2.
Qed.

(** ** Adding, then deleting *)

(** X7. Deleting a record just added gives back the collection as it was,
    provided both writes reach the cache and the id drawn for the record
    was carried by no record of the collection (a record that already
    carried it would be deleted along). *)
Theorem add_then_delete_restores
    (isSupabaseConfigured supabase : bool) (uuid : string)
    (error error' : option string) (tradeData : TradeData.t)
    (item : PortfolioItemData.t) (entry : JournalEntryData.t) (st : State) :
  written isSupabaseConfigured supabase error = true →
  written isSupabaseConfigured supabase error' = true →
  (∀ t, t ∈ trades st → Trade.id t ≠ uuid) →
  (∀ it, it ∈ portfolioItems st → PortfolioItem.id it ≠ uuid) →
  (∀ e, e ∈ journalEntries st → JournalEntry.id e ≠ uuid) →
  trades
    (deleteTrade isSupabaseConfigured supabase error' uuid
       (addTrade isSupabaseConfigured supabase uuid error tradeData st))
  = trades st
  ∧ portfolioItems
      (deletePortfolioItem isSupabaseConfigured supabase error' uuid
         (addPortfolioItem isSupabaseConfigured supabase uuid error item st))
    = portfolioItems st
  ∧ journalEntries
      (deleteJournalEntry isSupabaseConfigured supabase error' uuid
         (addJournalEntry isSupabaseConfigured supabase uuid error entry st))
    = journalEntries st.
Proof.
  intros Hw Hw' Ht Hp Hj.
  rewrite deleteTrade_trades, deletePortfolioItem_portfolioItems,
    deleteJournalEntry_journalEntries, Hw'.
  rewrite addTrade_trades, addPortfolioItem_portfolioItems,
    addJournalEntry_journalEntries, Hw. simpl.
  rewrite !bool_decide_eq_true_2 by done. simpl.
  repeat split; apply filter_all; intros x Hx;
    apply negb_true_iff, bool_decide_eq_false; auto.
Qed.

Lemma add_then_delete_restores_witness :
  let st :=
    calls false false
      [("id-1", None, AddTrade (sampleTrade LONG 100 None 1000 Open))]
      samplePortfolio in
  trades
    (deleteTrade false false None "id-2"
       (addTrade false false "id-2" None
          (sampleTrade SHORT 50 None 10 Open) st))
  = trades st.
Proof.
  cbv zeta.
  refine (proj1 (add_then_delete_restores false false "id-2" None None
                   (sampleTrade SHORT 50 None 10 Open)
                   (PortfolioItemData.mk "ETH" 1 1 1 Liquid (Some Crypto))
                   sampleEntry _ eq_refl eq_refl _ _ _)).
  - intros t Ht. vm_compute in Ht.
    apply list_elem_of_singleton in Ht. by subst t.
  - intros it Hit. vm_compute in Hit.
    apply elem_of_cons in Hit as [->|Hit]; [done|].
    apply list_elem_of_singleton in Hit. by subst it.
  - intros e He. vm_compute in He. by apply elem_of_nil in He.
Defined.

(** ** The stored pnl is the derived one *)

Lemma addTrade_newTrade_derived uuid tradeData :
  pnlDerived (addTrade_newTrade uuid tradeData).
Proof.
  split.
  - apply addTrade_newTrade_tracks.
  - intros x Hs Hx Ht. simpl in Hs, Hx.
    by rewrite (addTrade_pnl_closed uuid tradeData x Hs Hx Ht).
Qed.

Lemma editTrade_finalTrade_derived currentTrade updates :
  pnlDerived (editTrade_finalTrade currentTrade updates).
Proof.
  split.
  - apply editTrade_finalTrade_tracks.
  - change (editTrade_finalTrade currentTrade updates)
      with (withPnl (mergeTrade currentTrade updates)
              (editTrade_pnl currentTrade (mergeTrade currentTrade updates))).
    generalize (mergeTrade currentTrade updates). intros m x Hs Hx Ht.
    simpl in Hs, Hx. simpl.
    by rewrite (editTrade_pnl_closed currentTrade m x Hs Hx Ht).
Qed.

(** X8. Every stored trade carries the pnl the store derives from its own
    fields: after any sequence of calls started from a collection where
    this holds, a trade with status Open has no pnl, and a trade that is
    not Open and whose exit price is a non-zero number has exactly
    [(exit - entry) / entry * size] for Long and
    [(entry - exit) / entry * size] for Short, whatever was edited since
    it was added. *)
Theorem stored_pnl_is_derived
    (isSupabaseConfigured supabase : bool)
    (l : list (string * option string * Mutation)) (st : State) :
  Forall pnlDerived (trades st) →
  Forall pnlDerived (trades (calls isSupabaseConfigured supabase l st)).
Proof.
  revert st. induction l as [|[[uuid error] m] l IH]; intros st Hinv; [done|].
  simpl. apply IH. clear IH.
  destruct (call_trades_cases isSupabaseConfigured supabase uuid error m st)
    as [->|[[tradeData ->]|[(id & currentTrade & updates & ->)|[[keep ->]| ->]]]].
  - done.
  - constructor; [apply addTrade_newTrade_derived | done].
  - apply Forall_forall. intros t Ht.
    apply list_elem_of_In, in_map_iff in Ht. destruct Ht as (t0 & <- & Ht0).
    case_bool_decide; [apply editTrade_finalTrade_derived|].
    rewrite Forall_forall in Hinv. by apply Hinv, list_elem_of_In.
  - apply Forall_forall. intros t Ht.
    apply elem_of_filter_bool in Ht as [Ht _].
    rewrite Forall_forall in Hinv. by apply Hinv.
  - constructor.
Qed.

Lemma stored_pnl_is_derived_witness :
  Forall pnlDerived
    (trades
       (calls false false
          [("id-1", None, AddTrade (sampleTrade LONG 100 None 1000 Open));
           ("", None, EditTrade "id-1" (updateExit (Some 110%float) Win));
           ("", None,
            EditTrade "id-1"
              (TradeUpdates.mk None None (Some SHORT) None None
                 (Some 500%float) None None None None))]
          initialState)).
Proof.
  apply stored_pnl_is_derived. vm_compute. constructor.
Defined.

(** ** Saving twice, and saving the whole payload *)

Lemma default_twice {A} (x : A) (o : option A) :
  default (default x o) o = default x o.
Proof. by destruct o. Qed.

Lemma mergeTrade_twice currentTrade updates pnl :
  mergeTrade (withPnl (mergeTrade currentTrade updates) pnl) updates
  = withPnl (mergeTrade currentTrade updates) pnl.
Proof.
  unfold mergeTrade, withPnl; simpl. by rewrite !default_twice.
Qed.

Lemma editTrade_pnl_settled currentTrade m :
  editTrade_pnl (withPnl m (editTrade_pnl currentTrade m))
    (withPnl m (editTrade_pnl currentTrade m))
  = editTrade_pnl currentTrade m.
Proof.
  unfold editTrade_pnl; simpl.
  destruct (bool_decide (Trade.status m = Open)); simpl; [done|].
  destruct (Trade.exitPrice m) as [x|]; simpl; [|done].
  by destruct (truthy x).
Qed.

Lemma editTrade_finalTrade_twice currentTrade updates :
  editTrade_finalTrade (editTrade_finalTrade currentTrade updates) updates
  = editTrade_finalTrade currentTrade updates.
Proof.
  unfold editTrade_finalTrade at 1.
  change (editTrade_finalTrade currentTrade updates)
    with (withPnl (mergeTrade currentTrade updates)
            (editTrade_pnl currentTrade (mergeTrade currentTrade updates))).
  rewrite mergeTrade_twice.
  generalize (mergeTrade currentTrade updates). intros m.
  rewrite editTrade_pnl_settled. done.
Qed.

Lemma find_after_replace id (l : list Trade.t) currentTrade final :
  Trade.id final = id →
  List.find (fun t => bool_decide (Trade.id t = id)) l = Some currentTrade →
  List.find (fun t => bool_decide (Trade.id t = id))
    (List.map (fun t => if bool_decide (Trade.id t = id) then final else t) l)
  = Some final.
Proof.
  intros Hid. induction l as [|t l IH]; simpl; [done|].
  case_bool_decide as Ht.
  - intros _. by rewrite bool_decide_eq_true_2.
  - rewrite bool_decide_eq_false_2 by done. apply IH.
Qed.

(** X9. Saving the same update a second time changes nothing: once an
    [editTrade] has reached the cache, repeating it with the same id and
    update leaves the trades as the first one made them, whether or not the
    second write succeeds. *)
Theorem editTrade_twice
    (isSupabaseConfigured supabase : bool) (error error' : option string)
    (id : string) (updates : TradeUpdates.t) (st : State) :
  written isSupabaseConfigured supabase error = true →
  trades
    (editTrade isSupabaseConfigured supabase error' id updates
       (editTrade isSupabaseConfigured supabase error id updates st))
  = trades (editTrade isSupabaseConfigured supabase error id updates st).
Proof.
  intros Hw.
  destruct (List.find (fun t => bool_decide (Trade.id t = id)) (trades st))
    as [currentTrade|] eqn:Hfind.
  - pose proof (editTrade_trades isSupabaseConfigured supabase error id
                  updates st currentTrade Hfind) as H1.
    rewrite Hw in H1.
    assert (Trade.id (editTrade_finalTrade currentTrade updates) = id) as Hid
      by (simpl; by apply (find_id_some id (trades st))).
    pose proof (find_after_replace id (trades st) currentTrade _ Hid Hfind)
      as Hfind'.
    rewrite <- H1 in Hfind'.
    rewrite (editTrade_trades _ _ _ _ _ _ _ Hfind').
    destruct (written _ _ error'); [|done].
    rewrite editTrade_finalTrade_twice, H1, map_map.
    apply map_ext. intros t.
    destruct (bool_decide (Trade.id t = id)) eqn:Ht.
    + by rewrite bool_decide_eq_true_2.
    + by rewrite Ht.
  - unfold editTrade at 2. rewrite Hfind. unfold editTrade. by rewrite Hfind.
Qed.

Lemma editTrade_twice_witness :
  let st :=
    addTrade false false "id-1" None (sampleTrade LONG 100 None 1000 Open)
      initialState in
  trades
    (editTrade false false None "id-1" (updateExit (Some 110%float) Win)
       (editTrade false false None "id-1" (updateExit (Some 110%float) Win) st))
  = trades
      (editTrade false false None "id-1" (updateExit (Some 110%float) Win) st).
Proof.
  cbv zeta.
  exact (editTrade_twice false false None None "id-1"
           (updateExit (Some 110%float) Win) _ eq_refl).
Defined.



(** ** From the trade form to the store *)

Lemma inferredStatus_closed d entry exit : inferredStatus d entry exit ≠ Open.
Proof.
  unfold inferredStatus.
  destruct d, (entry <? exit)%float, (exit <? entry)%float; discriminate.
Qed.

(** X11. Logging a new trade with an exit price typed in: when the exit
    price field and the entry price field are filled and the write reaches
    the cache, the trade put at the front has the typed exit price, the
    status inferred from it (never Open), the ticker in upper case, and the
    pnl of the formula on the numbers typed; only when the exit price reads
    as zero or NaN does it have no pnl. *)
Theorem typed_exit_price_reaches_store
    (toUpperCase : string → string) (Number : string → float)
    (isSupabaseConfigured supabase : bool) (uuid : string)
    (error : option string) (price : string) (prev : FormData) (st : State) :
  nonEmpty price = true →
  nonEmpty (entryPrice prev) = true →
  written isSupabaseConfigured supabase error = true →
  ∃ t,
    trades
      (handleSubmit toUpperCase Number isSupabaseConfigured supabase uuid
         error None (handleExitPriceChange Number price prev) st)
    = t :: trades st
    ∧ Trade.id t = uuid
    ∧ Trade.ticker t = toUpperCase (ticker prev)
    ∧ Trade.exitPrice t = Some (Number price)
    ∧ Trade.status t
      = inferredStatus (direction prev) (Number (entryPrice prev))
          (Number price)
    ∧ Trade.status t ≠ Open
    ∧ Trade.pnl t
      = if truthy (Number price)
        then Some (pnlFormula (direction prev) (Number (entryPrice prev))
                     (Number price) (Number (size prev)))
        else None.
Proof.
  intros Hp He Hw. eexists. split.
  { unfold handleSubmit. rewrite addTrade_trades, Hw. reflexivity. }
  assert (status (handleExitPriceChange Number price prev)
          = inferredStatus (direction prev) (Number (entryPrice prev))
              (Number price)) as Hst.
  { unfold handleExitPriceChange, inferredStatus; simpl. by rewrite Hp, He. }
  repeat split.
  - simpl. by rewrite Hp.
  - exact Hst.
  - change (status (handleExitPriceChange Number price prev) ≠ Open).
    rewrite Hst. apply inferredStatus_closed.
  - destruct (truthy (Number price)) eqn:Ht.
    + rewrite (addTrade_pnl_closed uuid _ (Number price)); [reflexivity| | |done].
      * change (status (handleExitPriceChange Number price prev) ≠ Open).
        rewrite Hst. apply inferredStatus_closed.
      * simpl. by rewrite Hp.
    + unfold addTrade_newTrade. cbn [Trade.pnl].
      assert (truthyOpt
                (TradeData.exitPrice
                   (submitPayload toUpperCase Number
                      (handleExitPriceChange Number price prev))) = false)
        as -> by (simpl; rewrite Hp; exact Ht).
      by rewrite andb_false_r.
Qed.

Lemma typed_exit_price_reaches_store_witness :
  ∃ t,
    trades
      (handleSubmit asciiToUpperCase decimalNumber false false "id-1" None
         None (handleExitPriceChange decimalNumber "110"
                 (sampleForm LONG "100")) initialState)
    = t :: trades initialState
    ∧ Trade.id t = "id-1"
    ∧ Trade.ticker t = "BTC"
    ∧ Trade.exitPrice t = Some 110%float
    ∧ Trade.status t = Win
    ∧ Trade.status t ≠ Open
    ∧ Trade.pnl t = Some 100%float.
Proof.
  exact (typed_exit_price_reaches_store asciiToUpperCase decimalNumber
           false false "id-1" None "110" (sampleForm LONG "100") initialState
           eq_refl eq_refl eq_refl).
Defined.

Lemma pnlDerived_settled t :
  pnlDerived t → editTrade_pnl t t = Trade.pnl t.
Proof.
  intros [Hopen Hclosed]. unfold editTrade_pnl.
  case_bool_decide as Hs; simpl; [by rewrite Hopen|].
  destruct (Trade.exitPrice t) as [x|] eqn:Hx; simpl; [|done].
  destruct (truthy x) eqn:Ht; [|done].
  rewrite (Hclosed x Hs eq_refl Ht). unfold pnlFormula.
  destruct (Trade.direction t); reflexivity.
Qed.

Lemma orUndefined_orEmpty (s : option string) :
  s ≠ Some "" → orUndefined (orEmpty s) = s.
Proof. by destruct s as [[|c s]|]. Qed.

Lemma find_unique id (l : list Trade.t) t :
  t ∈ l → Trade.id t = id →
  (∀ t', t' ∈ l → Trade.id t' = id → t' = t) →
  List.find (fun t => bool_decide (Trade.id t = id)) l = Some t.
Proof.
  intros Ht Hid Huniq.
  destruct (List.find (fun t => bool_decide (Trade.id t = id)) l)
    as [t'|] eqn:Hfind.
  - f_equal. apply Huniq.
    + apply find_some in Hfind as [Hin _]. by apply list_elem_of_In.
    + by apply (find_id_some id l).
  - apply list_elem_of_In in Ht. apply (find_none _ _ Hfind) in Ht.
    by apply bool_decide_eq_false in Ht.
Qed.

(** X12. Opening a stored trade in the form and saving it untouched leaves
    the trades as they were, for a trade that is the only one with its
    (non-empty) id, under what the form needs to carry it faithfully: the
    ticker is upper case, each number prints to a text that reads back as
    the same number, the exit price is absent or a non-zero number (a zero
    is emptied by the form), the optional texts are absent or non-empty
    (an empty one comes back absent), and the pnl is the derived one. *)
Theorem edit_dialog_unchanged_save
    (toUpperCase : string → string) (Number : string → float)
    (numberToString : float → string)
    (isSupabaseConfigured supabase : bool) (uuid : string)
    (error : option string) (t : Trade.t) (st : State) :
  t ∈ trades st →
  nonEmpty (Trade.id t) = true →
  (∀ t', t' ∈ trades st → Trade.id t' = Trade.id t → t' = t) →
  toUpperCase (Trade.ticker t) = Trade.ticker t →
  Number (numberToString (Trade.entryPrice t)) = Trade.entryPrice t →
  Number (numberToString (Trade.size t)) = Trade.size t →
  (∀ x, Trade.exitPrice t = Some x →
        truthy x = true ∧ nonEmpty (numberToString x) = true
        ∧ Number (numberToString x) = x) →
  Trade.exitReason t ≠ Some "" →
  Trade.postExitReflection t ≠ Some "" →
  pnlDerived t →
  trades
    (handleSubmit toUpperCase Number isSupabaseConfigured supabase uuid error
       (Some (Trade.id t)) (handleEdit numberToString t) st)
  = trades st.
Proof.
  intros Hin Hid Huniq Hticker Hentry Hsize Hexit Hreason Hrefl Hpnl.
  unfold handleSubmit. rewrite Hid.
  rewrite (editTrade_trades _ _ _ _ _ _ t
             (find_unique _ _ _ Hin eq_refl Huniq)).
  destruct (written _ _ _); [|done].
  assert (editTrade_finalTrade t
            (fullUpdate (submitPayload toUpperCase Number
                           (handleEdit numberToString t))) = t) as ->.
  { assert (mergeTrade t
              (fullUpdate (submitPayload toUpperCase Number
                             (handleEdit numberToString t))) = t) as Hmerge.
    { unfold mergeTrade, fullUpdate, submitPayload, handleEdit; simpl.
      rewrite Hticker, Hentry, Hsize, !orUndefined_orEmpty by done.
      assert ((if nonEmpty
                    match Trade.exitPrice t with
                    | Some x => if truthy x then numberToString x else ""
                    | None => ""
                    end
               then Some (Number
                            match Trade.exitPrice t with
                            | Some x => if truthy x then numberToString x else ""
                            | None => ""
                            end)
               else None) = Trade.exitPrice t) as ->.
      { destruct (Trade.exitPrice t) as [x|]; [|done].
        destruct (Hexit x eq_refl) as (-> & -> & ->). done. }
      by destruct t. }
    unfold editTrade_finalTrade. rewrite Hmerge.
    rewrite (pnlDerived_settled t Hpnl). by destruct t. }
  rewrite <- (map_id (trades st)) at 2. apply map_ext_in.
  intros t' Ht'. case_bool_decide; [|done].
  symmetry. apply Huniq; [by apply list_elem_of_In | done].
Qed.

Lemma edit_dialog_unchanged_save_witness :
  let t :=
    addTrade_newTrade "id-1" (sampleTrade LONG 100 (Some 110%float) 1000 Win) in
  let st :=
    addTrade false false "id-1" None
      (sampleTrade LONG 100 (Some 110%float) 1000 Win) initialState in
  trades
    (handleSubmit asciiToUpperCase decimalNumber false false "" None
       (Some "id-1") (handleEdit integerToString t) st)
  = trades st.
Proof.
  cbv zeta.
  refine (edit_dialog_unchanged_save asciiToUpperCase decimalNumber
            integerToString false false "" None
            (addTrade_newTrade "id-1"
               (sampleTrade LONG 100 (Some 110%float) 1000 Win))
            (addTrade false false "id-1" None
               (sampleTrade LONG 100 (Some 110%float) 1000 Win) initialState)
            _ eq_refl _ eq_refl eq_refl eq_refl _ _ _ _).
  - vm_compute. by left.
  - intros t' Ht' _. vm_compute in Ht'.
    apply list_elem_of_singleton in Ht'. by subst t'.
  - intros x Hx. injection Hx as <-. by vm_compute.
  - discriminate.
  - discriminate.
  - apply addTrade_newTrade_derived.
Defined.

(** ** Further properties of the price refresh *)

Section RefreshFacts.

Variable toUpperCase : string → string.
Variable toFixed2 : float → float.

Local Abbreviation refreshPrices := (refreshPrices toUpperCase toFixed2).
Local Abbreviation cryptoTickers := (cryptoTickers toUpperCase).

Lemma refreshPrices_empty captured fetch random now st :
  portfolioItems captured = [] →
  refreshPrices captured fetch random now st = st.
Proof. intros H. unfold refreshPrices. by rewrite H. Qed.

Lemma cryptoTickers_fold (items : list PortfolioItem.t) (acc : list string) :
  let tickers :=
    fold_left
      (fun tickers item =>
         if isCrypto item then
           let ticker := toUpperCase (PortfolioItem.token item) in
           if bool_decide (ticker ∈ tickers) then tickers
           else tickers ++ [ticker]
         else tickers)
      items acc in
  (NoDup acc → NoDup tickers)
  ∧ ∀ k, k ∈ tickers
         ↔ k ∈ acc
           ∨ ∃ it, it ∈ items ∧ isCrypto it = true
                   ∧ toUpperCase (PortfolioItem.token it) = k.
Proof.
  revert acc. induction items as [|item items IH]; intros acc; simpl.
  - split; [done|]. intros k. split; [by left|].
    intros [H|(it & Hit & _)]; [done|]. by apply elem_of_nil in Hit.
  - destruct (isCrypto item) eqn:Hc.
    + case_bool_decide as Hin.
      * destruct (IH acc) as [Hnd Hmem]. split; [done|].
        intros k. rewrite Hmem. split.
        -- intros [H|(it & Hit & H)]; [by left|].
           right. exists it. split; [by right | done].
        -- intros [H|(it & Hit & Hcr & Hk)]; [by left|].
           apply elem_of_cons in Hit as [->|Hit].
           ++ left. by rewrite <- Hk.
           ++ right. by exists it.
      * destruct (IH (acc ++ [toUpperCase (PortfolioItem.token item)]))
          as [Hnd Hmem]. split.
        -- intros Hacc. apply Hnd. apply NoDup_app. split; [done|].
           split; [|apply NoDup_singleton].
           intros x Hx Hx'. apply list_elem_of_singleton in Hx'. by subst x.
        -- intros k. rewrite Hmem, elem_of_app, list_elem_of_singleton. split.
           ++ intros [[H| ->]|(it & Hit & H)].
              ** by left.
              ** right. exists item. split; [by left | done].
              ** right. exists it. split; [by right | done].
           ++ intros [H|(it & Hit & Hcr & Hk)]; [by left; left|].
              apply elem_of_cons in Hit as [->|Hit].
              ** left. by right.
              ** right. by exists it.
    + destruct (IH acc) as [Hnd Hmem]. split; [done|].
      intros k. rewrite Hmem. split.
      * intros [H|(it & Hit & H)]; [by left|].
        right. exists it. split; [by right | done].
      * intros [H|(it & Hit & Hcr & Hk)]; [by left|].
        apply elem_of_cons in Hit as [->|Hit]; [congruence|].
        right. by exists it.
Qed.

Lemma cryptoTickers_is_set_aux (items : list PortfolioItem.t) k :
  k ∈ cryptoTickers items →
  ∃ it, it ∈ items ∧ isCrypto it = true
        ∧ toUpperCase (PortfolioItem.token it) = k.
Proof.
  intros Hk. destruct (cryptoTickers_fold items []) as [_ Hmem].
  apply Hmem in Hk as [Hk|Hk]; [|done]. by apply elem_of_nil in Hk.
Qed.

End RefreshFacts.

(** X13. The tickers sent to the price feed form a set: no ticker occurs
    twice, and a ticker is sent exactly when it is the upper-cased token of
    some holding that is Crypto or has no asset type. *)
Theorem cryptoTickers_is_set
    (toUpperCase : string → string) (items : list PortfolioItem.t) :
  NoDup (cryptoTickers toUpperCase items)
  ∧ ∀ k, k ∈ cryptoTickers toUpperCase items
         ↔ ∃ it, it ∈ items ∧ isCrypto it = true
                 ∧ toUpperCase (PortfolioItem.token it) = k.
Proof.
  destruct (cryptoTickers_fold toUpperCase items []) as [Hnd Hmem].
  split; [apply Hnd, NoDup_nil_2|].
  intros k. unfold cryptoTickers. rewrite Hmem. split; [|by right].
  intros [H|H]; [|done]. by apply elem_of_nil in H.
Qed.

(** X15. A failure of the feed acts as a response cut where it fails. When
    reading an entry of the response throws, the run ends as if the
    response had held only the entries before it, and when the request or
    its decoding throws, as if it had held none: the quotes before the
    failure are merged (each is in the map written, unless a stock token
    overwrites it), the later ones are not, and the time of the last update
    is recorded all the same. *)
Theorem feed_failure_cuts_response
    (toUpperCase : string → string) (toFixed2 : float → float)
    (captured : State)
    (fetch fetch' : string → option (list (string * option float)))
    (random : nat → float) (now : Z) (st : State)
    (pre post : list (string * option float)) (ticker : string) :
  let tickers := cryptoTickers toUpperCase (portfolioItems captured) in
  let st' := refreshPrices toUpperCase toFixed2 captured fetch random now st in
  tickers ≠ [] →
  fetch (priceUrl tickers) = Some (pre ++ (ticker, None) :: post)
  ∨ (fetch (priceUrl tickers) = None ∧ pre = []) →
  fetch' (priceUrl tickers) = Some pre →
  NoDup pre.*1 →
  (∀ e, e ∈ pre → is_Some e.2) →
  st' = refreshPrices toUpperCase toFixed2 captured fetch' random now st
  ∧ (∀ k v, (k, Some v) ∈ pre →
            k ∉ List.map PortfolioItem.token
                  (stockItems (portfolioItems captured)) →
            livePrices st' !! k = Some v)
  ∧ (∀ k, k ∉ pre.*1 →
          k ∉ List.map PortfolioItem.token
                (stockItems (portfolioItems captured)) →
          livePrices st' !! k = livePrices captured !! k)
  ∧ lastUpdated st' = Some now
  ∧ isRefreshing st' = false.
Proof.
  intros tickers st' Htickers Hfetch Hfetch' Hnd Hall.
  assert (portfolioItems captured ≠ []) as Hne.
  { intros Hnil. apply Htickers. subst tickers. by rewrite Hnil. }
  assert (fetched toUpperCase fetch (portfolioItems captured) = quotes pre)
    as Hdata.
  { unfold fetched. fold tickers.
    rewrite bool_decide_eq_true_2 by (destruct tickers; [done | simpl; lia]).
    destruct Hfetch as [-> | [-> ->]]; [|done].
    unfold quotes. apply mergeCrypto_cut. }
  assert (st'
          = refreshPrices toUpperCase toFixed2 captured fetch' random now st)
    as Hsame.
  { subst st'. unfold refreshPrices. fold tickers. rewrite Hfetch'.
    destruct Hfetch as [-> | [-> ->]]; [|done].
    by rewrite mergeCrypto_cut. }
  split; [exact Hsame|].
  pose proof (refreshPrices_livePrices toUpperCase toFixed2 captured fetch
                random now st Hne) as Hlive.
  fold st' in Hlive. rewrite Hdata in Hlive.
  split; [|split].
  - intros k v Hin Hk. rewrite Hlive, simulateStocks_untouched by done.
    apply lookup_union_Some_l. unfold quotes. by apply mergeCrypto_quote.
  - intros k Hpre Hk. rewrite Hlive, simulateStocks_untouched by done.
    rewrite lookup_union_r; [done|].
    unfold quotes. by rewrite mergeCrypto_other.
  - subst st'.
    destruct (refreshPrices_stamps toUpperCase toFixed2 captured fetch random
                now st Hne) as (H1 & H2 & _).
    done.
Qed.

Lemma feed_failure_cuts_response_witness :
  let fetch (url : string) :=
    Some [("BTC", Some 50000%float); ("ETH", None);
          ("SOL", Some 150%float)] in
  let st' :=
    refreshPrices asciiToUpperCase toFixed2_binary64 loadedPortfolio fetch
      sampleRandom 1700000000000 loadedPortfolio in
  st'
  = refreshPrices asciiToUpperCase toFixed2_binary64 loadedPortfolio
      sampleFetch sampleRandom 1700000000000 loadedPortfolio
  ∧ livePrices st' !! "BTC" = Some 50000%float
  ∧ livePrices st' !! "SOL" = None
  ∧ lastUpdated st' = Some 1700000000000%Z.
Proof.
  cbv zeta.
  destruct (feed_failure_cuts_response asciiToUpperCase toFixed2_binary64
              loadedPortfolio
              (fun _ => Some [("BTC", Some 50000%float); ("ETH", None);
                              ("SOL", Some 150%float)])
              sampleFetch sampleRandom 1700000000000 loadedPortfolio
              [("BTC", Some 50000%float)] [("SOL", Some 150%float)] "ETH"
              ltac:(discriminate) (or_introl eq_refl) eq_refl)
    as (Hsame & Hquote & Hkept & Hstamp & _).
  - apply NoDup_singleton.
  - intros e He. apply list_elem_of_singleton in He. subst e. by eexists.
  - split; [exact Hsame|]. split; [|split; [|exact Hstamp]].
    + apply Hquote; [by left|].
      vm_compute. intros H. apply list_elem_of_singleton in H. discriminate.
    + rewrite Hkept; [reflexivity| |].
      * vm_compute. intros H. apply list_elem_of_singleton in H. discriminate.
      * vm_compute. intros H. apply list_elem_of_singleton in H. discriminate.
Defined.

(** X16. A portfolio without crypto holdings makes no request: the outcome
    of a refresh is the same whatever the feed would answer. *)
Theorem no_crypto_no_request
    (toUpperCase : string → string) (toFixed2 : float → float)
    (captured : State)
    (fetch fetch' : string → option (list (string * option float)))
    (random : nat → float) (now : Z) (st : State) :
  (∀ it, it ∈ portfolioItems captured → isCrypto it = false) →
  refreshPrices toUpperCase toFixed2 captured fetch random now st
  = refreshPrices toUpperCase toFixed2 captured fetch' random now st.
Proof.
  intros Hstock.
  assert (cryptoTickers toUpperCase (portfolioItems captured) = []) as Hnone.
  { destruct (cryptoTickers toUpperCase (portfolioItems captured))
      as [|k l] eqn:Hk; [done|].
    destruct (cryptoTickers_is_set_aux toUpperCase (portfolioItems captured) k)
      as (it & Hit & Hcr & _); [rewrite Hk; by left|].
    rewrite Hstock in Hcr by done. discriminate. }
  unfold refreshPrices. by rewrite Hnone.
Qed.

Lemma no_crypto_no_request_witness :
  let st :=
    setPortfolioItems [sampleItem "p-2" "AAPL" 190.12 Stock] initialState in
  refreshPrices asciiToUpperCase toFixed2_binary64 st sampleFetch sampleRandom
    1700000000000 st
  = refreshPrices asciiToUpperCase toFixed2_binary64 st failingFetch
      sampleRandom 1700000000000 st.
Proof.
  cbv zeta. apply no_crypto_no_request.
  intros it Hit. vm_compute in Hit.
  apply list_elem_of_singleton in Hit. by subst it.
Defined.

(** ** From the refresh to the valuation *)

Lemma elem_of_stockItems (items : list PortfolioItem.t) it :
  it ∈ items → isCrypto it = false → it ∈ stockItems items.
Proof.
  intros Hit Hc. apply elem_of_filter_bool. by rewrite Hc.
Qed.

Lemma stock_priced_after_refresh
    (toUpperCase : string → string) (toFixed2 : float → float)
    (captured : State)
    (fetch : string → option (list (string * option float)))
    (random : nat → float) (now : Z) (st : State) (stock : PortfolioItem.t) :
  stock ∈ portfolioItems captured →
  isCrypto stock = false →
  is_Some (livePrices
             (refreshPrices toUpperCase toFixed2 captured fetch random now st)
             !! PortfolioItem.token stock).
Proof.
  intros Hin Hstock.
  assert (portfolioItems captured ≠ []) as Hne
    by (intros H; rewrite H in Hin; by apply elem_of_nil in Hin).
  rewrite refreshPrices_livePrices by done.
  apply simulateStocks_touched.
  apply list_elem_of_In, in_map, list_elem_of_In.
  by apply elem_of_stockItems.
Qed.



(** X18. A stock holding whose token is not in upper case is not valued
    live by the refresh that prices it: the refresh files the synthesized
    price under the token as stored, the valuation looks under the
    upper-cased token, and when that key is neither in the map the callback
    read nor among the refreshed keys the holding stays at its manual
    [currentPrice]. *)
Theorem stock_token_case_mismatch
    (toUpperCase : string → string) (toFixed2 : float → float)
    (captured : State)
    (fetch : string → option (list (string * option float)))
    (random : nat → float) (now : Z) (st : State) (stock : PortfolioItem.t) :
  stock ∈ portfolioItems captured →
  isCrypto stock = false →
  livePrices captured !! toUpperCase (PortfolioItem.token stock) = None →
  fetched toUpperCase fetch (portfolioItems captured)
    !! toUpperCase (PortfolioItem.token stock) = None →
  toUpperCase (PortfolioItem.token stock)
    ∉ List.map PortfolioItem.token (stockItems (portfolioItems captured)) →
  let st' := refreshPrices toUpperCase toFixed2 captured fetch random now st in
  is_Some (livePrices st' !! PortfolioItem.token stock)
  ∧ isLive (statsRow toUpperCase (livePrices st') stock) = false
  ∧ effectivePrice (statsRow toUpperCase (livePrices st') stock)
    = PortfolioItem.currentPrice stock.
Proof.
  intros Hin Hstock Hold Hdata Hnot st'.
  assert (portfolioItems captured ≠ []) as Hne
    by (intros H; rewrite H in Hin; by apply elem_of_nil in Hin).
  pose proof (refreshPrices_livePrices toUpperCase toFixed2 captured fetch
                random now st Hne) as Hlive.
  fold st' in Hlive. split.
  - rewrite Hlive. apply simulateStocks_touched.
    apply list_elem_of_In, in_map, list_elem_of_In.
    by apply elem_of_stockItems.
  - assert (livePrices st' !! toUpperCase (PortfolioItem.token stock) = None)
      as Hnone.
    { rewrite Hlive, simulateStocks_untouched by done.
      by apply lookup_union_None_2. }
    unfold statsRow; simpl. rewrite Hnone. split; [|done].
    apply bool_decide_eq_false. by intros [x Hx].
Qed.

Lemma stock_token_case_mismatch_witness :
  let st :=
    setPortfolioItems [sampleItem "p-3" "aapl" 190.12 Stock] initialState in
  let st' :=
    refreshPrices asciiToUpperCase toFixed2_binary64 st sampleFetch
      sampleRandom 1700000000000 st in
  is_Some (livePrices st' !! "aapl")
  ∧ isLive (statsRow asciiToUpperCase (livePrices st')
              (sampleItem "p-3" "aapl" 190.12 Stock)) = false
  ∧ effectivePrice (statsRow asciiToUpperCase (livePrices st')
                      (sampleItem "p-3" "aapl" 190.12 Stock)) = 190.12%float.
Proof.
  cbv zeta.
  refine (stock_token_case_mismatch asciiToUpperCase toFixed2_binary64
            (setPortfolioItems [sampleItem "p-3" "aapl" 190.12 Stock]
               initialState)
            sampleFetch sampleRandom 1700000000000
            (setPortfolioItems [sampleItem "p-3" "aapl" 190.12 Stock]
               initialState)
            (sampleItem "p-3" "aapl" 190.12 Stock) _ eq_refl eq_refl eq_refl _).
  - vm_compute. by left.
  - vm_compute. intros H. apply list_elem_of_singleton in H. discriminate.
Defined.

(** ** Reloading from local storage *)

Section Reload.

Variable supabase : bool.
Variable JOURNAL_ENTRIES : list JournalEntry.t.
Variable PORTFOLIO_ITEMS : list PortfolioItem.t.
Variable TRADES : list Trade.t.

Local Abbreviation fetchData :=
  (fetchData false supabase JOURNAL_ENTRIES PORTFOLIO_ITEMS TRADES).

(** What a load from local storage puts in the cache is what the storage
    parses to. *)
Lemma fetchData_local_parsed remote st0 st1 :
  fetchData remote st0 = Some st1 →
  localStorage st1 = localStorage st0
  ∧ parseJournal JOURNAL_ENTRIES (localStorage st0 !! "journalEntries")
    = Some (journalEntries st1)
  ∧ parsePortfolio PORTFOLIO_ITEMS (localStorage st0 !! "portfolioItems")
    = Some (portfolioItems st1)
  ∧ parseTrades TRADES (localStorage st0 !! "trades") = Some (trades st1)
  ∧ loading st1 = false.
Proof.
  unfold fetchData; simpl.
  destruct (parseJournal _ _) as [j|]; simpl; [|done].
  destruct (parsePortfolio _ _) as [p|]; simpl; [|done].
  destruct (parseTrades _ _) as [t|]; simpl; [|done].
  intros [= <-]. done.
Qed.

Lemma fetchData_local_of_parsed remote st j p t :
  parseJournal JOURNAL_ENTRIES (localStorage st !! "journalEntries") = Some j →
  parsePortfolio PORTFOLIO_ITEMS (localStorage st !! "portfolioItems")
  = Some p →
  parseTrades TRADES (localStorage st !! "trades") = Some t →
  ∃ st', fetchData remote st = Some st'
         ∧ collections st' = (j, p, t) ∧ loading st' = false.
Proof.
  intros Hj Hp Ht. unfold fetchData; simpl.
  rewrite Hj, Hp, Ht; simpl. by eexists.
Qed.

End Reload.

(** X19. On the local strategy, what was loaded and then changed by any
    sequence of calls is what a reload finds: a fresh provider started on
    the local storage the calls left loads collections equal to the cached
    ones, provided the holdings and trades written hold only numbers that
    survive printing and parsing as JSON (finite, and not the negative
    zero). *)
Theorem reload_restores_collections
    (supabase : bool) (JOURNAL_ENTRIES : list JournalEntry.t)
    (PORTFOLIO_ITEMS : list PortfolioItem.t) (TRADES : list Trade.t)
    (remote remote' : RemoteLoad)
    (l : list (string * option string * Mutation)) (st0 st1 fresh : State) :
  fetchData false supabase JOURNAL_ENTRIES PORTFOLIO_ITEMS TRADES remote st0
  = Some st1 →
  let st := calls false supabase l st1 in
  mapM reparseItem (portfolioItems st) = Some (portfolioItems st) →
  mapM reparseTrade (trades st) = Some (trades st) →
  localStorage fresh = localStorage st →
  ∃ st2,
    fetchData false supabase JOURNAL_ENTRIES PORTFOLIO_ITEMS TRADES remote'
      fresh
    = Some st2
    ∧ collections st2 = collections st
    ∧ loading st2 = false.
Proof.
  intros Hload st Hitems Htrades Hfresh.
  destruct (fetchData_local_parsed _ _ _ _ _ _ _ Hload)
    as (Hls & Hj & Hp & Ht & _).
  rewrite <- Hls in Hj, Hp, Ht.
  destruct (calls_storageFollows supabase l st1 st1 (storageFollows_refl st1))
    as (Fj & Fp & Ft).
  fold st in Fj, Fp, Ft.
  apply fetchData_local_of_parsed; rewrite Hfresh.
  - destruct Fj as [-> | [-> ->]]; [done | exact Hj].
  - destruct Fp as [-> | [-> ->]]; [exact Hitems | exact Hp].
  - destruct Ft as [-> | [-> ->]]; [exact Htrades | exact Ht].
Qed.

Lemma reload_restores_collections_witness :
  let st1 :=
    setLoading false
      (setTrades []
         (setPortfolioItems [sampleItem "p-1" "btc" 42000 Crypto]
            (setJournalEntries [] (setLoading true initialState)))) in
  let st :=
    calls false false
      [("id-1", None, AddTrade (sampleTrade LONG 100 (Some 110%float) 1000 Win));
       ("e-1", None, AddJournalEntry sampleEntry);
       ("", None, EditTrade "id-1" (updateExitPrice (Some 120%float)))]
      st1 in
  ∃ st2,
    fetchData false false [] [sampleItem "p-1" "btc" 42000 Crypto] []
      LoadThrows (mkState [] [] [] true ∅ None false (localStorage st) [] 0)
    = Some st2
    ∧ collections st2 = collections st
    ∧ loading st2 = false.
Proof.
  intros st1 st.
  apply (reload_restores_collections false []
           [sampleItem "p-1" "btc" 42000 Crypto] [] LoadThrows LoadThrows
           [("id-1", None,
             AddTrade (sampleTrade LONG 100 (Some 110%float) 1000 Win));
            ("e-1", None, AddJournalEntry sampleEntry);
            ("", None, EditTrade "id-1" (updateExitPrice (Some 120%float)))]
           initialState st1
           (mkState [] [] [] true ∅ None false (localStorage st) [] 0)).
  - by vm_compute.
  - by vm_compute.
  - by vm_compute.
  - reflexivity.
Defined.

(** ** From the holding form to a live price *)

Lemma asciiUpper_twice c : asciiUpper (asciiUpper c) = asciiUpper c.
Proof. destruct c as [[] [] [] [] [] [] [] []]; reflexivity. Qed.

Lemma asciiToUpperCase_twice s :
  asciiToUpperCase (asciiToUpperCase s) = asciiToUpperCase s.
Proof.
  induction s as [|c s IH]; simpl; [done|]. by rewrite asciiUpper_twice, IH.
Qed.

(** X20. Adding a stock holding through the form, to a portfolio that is
    not empty: the form stores its token in upper case, the add puts the
    holding at the front and schedules a refresh. A refresh run by the
    callback of a render that has the holding (the call the polling effect
    makes when the number of holdings changes) values it live. The refresh
    the add schedules runs the callback of the render before the add: it
    does not read the new holding, and when its token was neither priced
    nor among the keys that run refreshes, the map it writes has no price
    for it and the holding is valued at its manual price again. (Given that
    upper-casing an upper-cased text changes nothing.) *)
Theorem stock_added_through_form
    (toUpperCase : string → string) (Number : string → float)
    (toFixed2 : float → float) (isSupabaseConfigured supabase : bool)
    (uuid : string) (error : option string)
    (fetch : string → option (list (string * option float)))
    (random : nat → float) (now : Z)
    (formData : PortfolioBreakdown.FormData) (st : State) :
  (∀ s, toUpperCase (toUpperCase s) = toUpperCase s) →
  written isSupabaseConfigured supabase error = true →
  PortfolioBreakdown.assetType formData = Stock →
  portfolioItems st ≠ [] →
  livePrices st !! toUpperCase (PortfolioBreakdown.token formData) = None →
  fetched toUpperCase fetch (portfolioItems st)
    !! toUpperCase (PortfolioBreakdown.token formData) = None →
  toUpperCase (PortfolioBreakdown.token formData)
    ∉ List.map PortfolioItem.token (stockItems (portfolioItems st)) →
  let st1 :=
    PortfolioBreakdown.handleSubmit toUpperCase Number isSupabaseConfigured
      supabase uuid error None formData st in
  ∃ it,
    portfolioItems st1 = it :: portfolioItems st
    ∧ PortfolioItem.id it = uuid
    ∧ PortfolioItem.token it
      = toUpperCase (PortfolioBreakdown.token formData)
    ∧ pendingRefresh st1 = S (pendingRefresh st)
    ∧ (∀ fetch' random' now' later,
         isLive
           (statsRow toUpperCase
              (livePrices
                 (refreshPrices toUpperCase toFixed2 st1 fetch' random' now'
                    later)) it)
         = true)
    ∧ (∀ later,
         let scheduled :=
           refreshPrices toUpperCase toFixed2 st fetch random now later in
         livePrices scheduled !! PortfolioItem.token it = None
         ∧ isLive (statsRow toUpperCase (livePrices scheduled) it) = false
         ∧ effectivePrice (statsRow toUpperCase (livePrices scheduled) it)
           = PortfolioItem.currentPrice it).
Proof.
  intros Hidem Hw Hstock Hne Hold Hdata Hnot st1.
  assert (portfolioItems st1
          = addPortfolioItem_newItem uuid
              (PortfolioBreakdown.submitPayload toUpperCase Number formData)
            :: portfolioItems st) as Hitems.
  { subst st1. unfold PortfolioBreakdown.handleSubmit.
    by rewrite addPortfolioItem_portfolioItems, Hw. }
  eexists. split; [exact Hitems|]. split; [done|]. split; [done|].
  split; [|split].
  - subst st1.
    unfold PortfolioBreakdown.handleSubmit, addPortfolioItem, persistToLS.
    by destruct isSupabaseConfigured, supabase, error.
  - intros fetch' random' now' later.
    unfold statsRow; simpl. apply bool_decide_eq_true. rewrite Hidem.
    apply (stock_priced_after_refresh toUpperCase toFixed2 st1 fetch' random'
             now' later
             (addPortfolioItem_newItem uuid
                (PortfolioBreakdown.submitPayload toUpperCase Number
                   formData))).
    + rewrite Hitems. by left.
    + unfold isCrypto; simpl. by rewrite Hstock.
  - intros later scheduled.
    assert (livePrices scheduled
              !! toUpperCase (PortfolioBreakdown.token formData) = None)
      as Hnone.
    { subst scheduled. rewrite refreshPrices_livePrices by done.
      rewrite simulateStocks_untouched by done.
      by apply lookup_union_None_2. }
    split; [exact Hnone|].
    unfold statsRow; simpl. rewrite Hidem, Hnone. split; [|done].
    apply bool_decide_eq_false. by intros [x Hx].
Qed.

Lemma stock_added_through_form_witness :
  let formData :=
    PortfolioBreakdown.mkFormData "msft" "2" "150" "190" Liquid Stock in
  let st1 :=
    PortfolioBreakdown.handleSubmit asciiToUpperCase decimalNumber false false
      "p-9" None None formData samplePortfolio in
  ∃ it,
    portfolioItems st1 = it :: portfolioItems samplePortfolio
    ∧ PortfolioItem.token it = "MSFT"
    ∧ isLive
        (statsRow asciiToUpperCase
           (livePrices
              (refreshPrices asciiToUpperCase toFixed2_binary64 st1
                 sampleFetch sampleRandom 1700000000000 st1)) it)
      = true
    ∧ isLive
        (statsRow asciiToUpperCase
           (livePrices
              (refreshPrices asciiToUpperCase toFixed2_binary64
                 samplePortfolio sampleFetch sampleRandom 1700000000500
                 (refreshPrices asciiToUpperCase toFixed2_binary64 st1
                    sampleFetch sampleRandom 1700000000000 st1))) it)
      = false.
Proof.
  cbv zeta.
  destruct (stock_added_through_form asciiToUpperCase decimalNumber
              toFixed2_binary64 false false "p-9" None sampleFetch
              sampleRandom 1700000000500
              (PortfolioBreakdown.mkFormData "msft" "2" "150" "190" Liquid
                 Stock)
              samplePortfolio asciiToUpperCase_twice eq_refl eq_refl
              ltac:(discriminate) eq_refl eq_refl)
    as (it & Hitems & _ & Htoken & _ & Hcurrent & Hscheduled).
  - vm_compute. intros H. apply list_elem_of_singleton in H. discriminate.
  - exists it. split; [exact Hitems|]. split; [exact Htoken|].
    split; [apply Hcurrent | apply Hscheduled].
Defined.


